(** * The PR review bot's deployment, as data

    A shallow embedding of the CDK constructs of the repository
    (lib/constructs/lambda.ts, lib/constructs/api-gateway.ts,
    lib/constructs/network.ts and the stack that wires them), followed by the
    properties of the deployment that the specification relies on.

    A construct is a pure function from its props to the resources it
    declares.  JavaScript objects are association lists in insertion order
    (the order [Object.entries] enumerates string keys in), an object literal
    with a spread is a left-to-right sequence of property writes, and the one
    loop of the code runs on a fuel counter. *)

From Stdlib Require Import String Ascii List Bool Arith PeanoNat Lia Permutation.
Import ListNotations.
Open Scope string_scope.

(** ** JavaScript objects *)

Module JsObject.
Section Obj.
Context {V : Type}.

Definition t := list (string * V).

Definition empty : t := [].

(** [o[k]] *)
Fixpoint get (k : string) (o : t) : option V :=
  match o with
  | [] => None
  | (k', v) :: o' => if String.eqb k k' then Some v else get k o'
  end.

(** [o[k] = v] for the keys the constructs write, which are identifiers:
    an own key keeps its place, a new key goes last.  (Keys that are array
    indices, which an object enumerates first, and [__proto__], which names no
    own property, are outside this model; see [ordinaryKey].) *)
Fixpoint set (k : string) (v : V) (o : t) : t :=
  match o with
  | [] => [(k, v)]
  | (k', v') :: o' =>
      if String.eqb k k' then (k', v) :: o' else (k', v') :: set k v o'
  end.

(** [{ p1, p2, ... }]: the properties are written in source order, a
    later one replacing an earlier one of the same name.  A spread
    [...src] contributes the entries of [src] at its position. *)
Definition literal (ps : list (string * V)) : t :=
  fold_left (fun o p => set (fst p) (snd p) o) ps empty.

(** [Object.entries(o)] *)
Definition entries (o : t) : list (string * V) := o.

Definition keys (o : t) : list string := map fst o.
End Obj.
Arguments t : clear implicits.
End JsObject.

(** ** The CDK vocabulary the constructs use *)

Inductive Runtime := PYTHON_3_11 | PYTHON_3_12 | PYTHON_3_13 | NODEJS_20_X.
Inductive Tracing := ACTIVE | PASS_THROUGH | DISABLED.
Inductive RetentionDays := ONE_DAY | ONE_WEEK | ONE_MONTH | ONE_YEAR | INFINITE.
Inductive SubnetType := PUBLIC | PRIVATE_WITH_EGRESS | PRIVATE_ISOLATED.

Module Duration.
Inductive t := seconds (n : nat) | minutes (n : nat).

Definition toSeconds (d : t) : nat :=
  match d with
  | seconds n => n
  | minutes n => 60 * n
  end.
End Duration.

(** Resources created elsewhere are known by their identity only. *)
Record IRole := { roleArn : string }.
Record ILayerVersion := { layerVersionArn : string }.

Record SubnetConfiguration := {
  subnetName : string;
  subnetType : SubnetType;
  cidrMask : nat
}.

Record Vpc := {
  vpcId : string;
  maxAzs : nat;
  natGateways : nat;
  subnetConfiguration : list SubnetConfiguration
}.

Record SecurityGroup := {
  sgId : string;
  sgVpc : Vpc;
  sgDescription : string;
  allowAllOutbound : bool
}.

Record PolicyStatement := {
  allow : bool;
  actions : list string;
  resources : list string
}.

(** The values a [lambda.FunctionProps] object holds. *)
Inductive PropValue :=
| VRuntime (r : Runtime)
| VRole (r : IRole)
| VTracing (t : Tracing)
| VRetention (d : RetentionDays)
| VEnvironment (e : JsObject.t string)
| VString (s : string)
| VAsset (path : string)
| VDuration (d : Duration.t)
| VNumber (n : nat)
| VLayers (l : list ILayerVersion)
| VVpc (v : Vpc)
| VSubnets (s : SubnetType)
| VSecurityGroups (g : list SecurityGroup).

Definition FunctionProps := JsObject.t PropValue.

(** [new lambda.Function(scope, id, props)] *)
Record LambdaFunction := {
  constructId : string;
  fnProps : FunctionProps
}.

Module Fn.
Definition prop (k : string) (f : LambdaFunction) : option PropValue :=
  JsObject.get k (fnProps f).

Definition runtime f :=
  match prop "runtime" f with Some (VRuntime r) => Some r | _ => None end.
Definition role f :=
  match prop "role" f with Some (VRole r) => Some r | _ => None end.
Definition tracing f :=
  match prop "tracing" f with Some (VTracing r) => Some r | _ => None end.
Definition logRetention f :=
  match prop "logRetention" f with Some (VRetention r) => Some r | _ => None end.
Definition environment f : JsObject.t string :=
  match prop "environment" f with Some (VEnvironment e) => e | _ => [] end.
Definition functionName f :=
  match prop "functionName" f with Some (VString s) => Some s | _ => None end.
Definition timeout f :=
  match prop "timeout" f with Some (VDuration d) => Some d | _ => None end.
Definition memorySize f :=
  match prop "memorySize" f with Some (VNumber n) => Some n | _ => None end.
(** An absent [layers] property is no layer at all. *)
Definition layers f : list ILayerVersion :=
  match prop "layers" f with Some (VLayers l) => l | _ => [] end.
Definition vpc f :=
  match prop "vpc" f with Some (VVpc v) => Some v | _ => None end.
End Fn.

(** ** CloudWatch dashboard *)

Inductive MetricKind := Invocations | Errors | Throttles | DurationMs.

Record Metric := {
  metricOf : string;       (* construct id of the function measured *)
  metricKind : MetricKind
}.

Record GraphWidget := {
  title : string;
  left : list Metric;
  width : nat
}.

Record Dashboard := {
  dashboardName : string;
  rows : list (list GraphWidget)
}.

(** [dashboard.addWidgets(...ws)]: one more row, unless [ws] is empty. *)
Definition addWidgets (ws : list GraphWidget) (d : Dashboard) : Dashboard :=
  match ws with
  | [] => d
  | _ => {| dashboardName := dashboardName d; rows := (rows d ++ [ws])%list |}
  end.

(** [a.slice(s, e)] for indices [0 <= s]. *)
Definition slice {A} (s e : nat) (a : list A) : list A :=
  firstn (e - s) (skipn s a).

(** ** lib/constructs/lambda.ts *)

Record ReviewBotLambdaProps := {
  role : IRole;
  requestsLayer : ILayerVersion;
  networkxLayer : ILayerVersion;
  vpc : Vpc
}.

Module ReviewBotLambda.

Definition commonProps (props : ReviewBotLambdaProps) : FunctionProps :=
  JsObject.literal
    [ ("runtime", VRuntime PYTHON_3_12);
      ("role", VRole (role props));
      ("tracing", VTracing DISABLED);
      ("logRetention", VRetention ONE_MONTH);
      ("environment",
        VEnvironment (JsObject.literal
          [ ("POWERTOOLS_SERVICE_NAME", "pr-reviewer");
            ("LOG_LEVEL", "INFO") ])) ].

(** [new lambda.Function(this, id, { ...commonProps, own })] *)
Definition newFunction (props : ReviewBotLambdaProps) (id : string)
    (own : list (string * PropValue)) : LambdaFunction :=
  {| constructId := id;
     fnProps := JsObject.literal (JsObject.entries (commonProps props) ++ own)%list |}.

Definition initialProcessing props :=
  newFunction props "InitialProcessing"
    [ ("functionName", VString "PRR-InitialProcessingFunction");
      ("description", VString "Process initial webhook payload");
      ("code", VAsset "src/lambda/initial-processing");
      ("handler", VString "index.lambda_handler");
      ("timeout", VDuration (Duration.seconds 30));
      ("memorySize", VNumber 256);
      ("layers", VLayers [requestsLayer props]) ].

Definition splitPr props :=
  newFunction props "SplitPR"
    [ ("functionName", VString "PRR-SplitPRIntoChunksFunction");
      ("description", VString "Split PR into analyzable chunks");
      ("code", VAsset "src/lambda/split-pr");
      ("handler", VString "index.lambda_handler");
      ("timeout", VDuration (Duration.minutes 5));
      ("memorySize", VNumber 512);
      ("layers", VLayers [requestsLayer props; networkxLayer props]) ].

Definition processChunk props :=
  newFunction props "ProcessChunk"
    [ ("functionName", VString "PRR-ProcessChunkFunction");
      ("description", VString "Process individual PR chunk");
      ("code", VAsset "src/lambda/process-chunk");
      ("handler", VString "index.lambda_handler");
      ("timeout", VDuration (Duration.minutes 10));
      ("memorySize", VNumber 1024);
      ("layers", VLayers [requestsLayer props]) ].

Definition aggregateResults props :=
  newFunction props "AggregateResults"
    [ ("functionName", VString "PRR-AggregateResultsFunction");
      ("description", VString "Aggregate review results");
      ("code", VAsset "src/lambda/aggregate-results");
      ("handler", VString "index.lambda_handler");
      ("timeout", VDuration (Duration.minutes 5));
      ("memorySize", VNumber 512) ].

Definition postPrCommentSecurityGroup props : SecurityGroup :=
  {| sgId := "PostPRCommentSecurityGroup";
     sgVpc := vpc props;
     sgDescription := "Security group for PR Comment Lambda";
     allowAllOutbound := true |}.

Definition postPrComment props :=
  newFunction props "PostPRComment"
    [ ("functionName", VString "PRR-PostPRCommentFunction");
      ("description", VString "Post review comments to PR");
      ("code", VAsset "src/lambda/post-pr-comment");
      ("handler", VString "index.lambda_handler");
      ("timeout", VDuration (Duration.minutes 2));
      ("memorySize", VNumber 256);
      ("layers", VLayers [requestsLayer props]);
      ("vpc", VVpc (vpc props));
      ("vpcSubnets", VSubnets PRIVATE_WITH_EGRESS);
      ("securityGroups", VSecurityGroups [postPrCommentSecurityGroup props]) ].

Definition vpcAccessStatement : PolicyStatement :=
  {| allow := true;
     actions :=
       [ "ec2:CreateNetworkInterface";
         "ec2:DescribeNetworkInterfaces";
         "ec2:DeleteNetworkInterface";
         "ec2:AssignPrivateIpAddresses";
         "ec2:UnassignPrivateIpAddresses" ];
     resources := ["*"] |}.

Definition sendSlackNotification props :=
  newFunction props "SendSlackNotification"
    [ ("functionName", VString "PRR-SendSlackNotificationFunction");
      ("description", VString "Send Slack notifications");
      ("code", VAsset "src/lambda/send-slack-notification");
      ("handler", VString "index.lambda_handler");
      ("timeout", VDuration (Duration.minutes 1));
      ("memorySize", VNumber 256);
      ("layers", VLayers [requestsLayer props]) ].

Definition handleError props :=
  newFunction props "HandleError"
    [ ("functionName", VString "PRR-HandleErrorFunction");
      ("description", VString "Handle workflow errors");
      ("code", VAsset "src/lambda/handle-error");
      ("handler", VString "index.lambda_handler");
      ("timeout", VDuration (Duration.minutes 1));
      ("memorySize", VNumber 256);
      ("layers", VLayers [requestsLayer props]) ].

(** The [functions] field after the constructor's seven assignments. *)
Definition functions (props : ReviewBotLambdaProps) : JsObject.t LambdaFunction :=
  let fs := JsObject.empty in
  let fs := JsObject.set "initialProcessing" (initialProcessing props) fs in
  let fs := JsObject.set "splitPr" (splitPr props) fs in
  let fs := JsObject.set "processChunk" (processChunk props) fs in
  let fs := JsObject.set "aggregateResults" (aggregateResults props) fs in
  let fs := JsObject.set "postPrComment" (postPrComment props) fs in
  let fs := JsObject.set "sendSlackNotification" (sendSlackNotification props) fs in
  let fs := JsObject.set "handleError" (handleError props) fs in
  fs.

(** [new GraphWidget({ title: `${name} Metrics`, left: [...], width: 12 })] *)
Definition graphWidget (entry : string * LambdaFunction) : GraphWidget :=
  let (name, fn) := entry in
  {| title := name ++ " Metrics";
     left :=
       [ {| metricOf := constructId fn; metricKind := Invocations |};
         {| metricOf := constructId fn; metricKind := Errors |};
         {| metricOf := constructId fn; metricKind := Throttles |};
         {| metricOf := constructId fn; metricKind := DurationMs |} ];
     width := 12 |}.

(** [Object.entries(this.functions).forEach(... widgets.push(...))] *)
Definition widgetsOf (fs : JsObject.t LambdaFunction) : list GraphWidget :=
  fold_left (fun widgets entry => (widgets ++ [graphWidget entry])%list)
            (JsObject.entries fs) [].

(** [for (let i = 0; i < widgets.length; i += 2)
      dashboard.addWidgets(...widgets.slice(i, i + 2))]
    from index [i] on; [None] when the fuel runs out before the loop ends. *)
Fixpoint addRows (fuel i : nat) (widgets : list GraphWidget) (d : Dashboard)
    : option Dashboard :=
  if Nat.ltb i (List.length widgets) then
    match fuel with
    | 0 => None
    | S fuel' =>
        addRows fuel' (i + 2) widgets (addWidgets (slice i (i + 2) widgets) d)
    end
  else Some d.

Definition createCloudWatchDashboard (fs : JsObject.t LambdaFunction)
    : option Dashboard :=
  let dashboard := {| dashboardName := "PR-ReviewBot-Metrics"; rows := [] |} in
  let widgets := widgetsOf fs in
  addRows (List.length widgets) 0 widgets dashboard.

(** What the construct declares. *)
Record t := {
  fns : JsObject.t LambdaFunction;
  rolePolicy : list PolicyStatement;
  dashboard : option Dashboard
}.

Definition constructor (props : ReviewBotLambdaProps) : t :=
  {| fns := functions props;
     rolePolicy := [vpcAccessStatement];
     dashboard := createCloudWatchDashboard (functions props) |}.

End ReviewBotLambda.


(** ** Strings of the mapping templates *)

(** The double quote and the backslash, as one-character strings. *)
Definition dq : string := String (ascii_of_nat 34) EmptyString.
Definition bs : string := String (ascii_of_nat 92) EmptyString.
Definition apostrophe : ascii := ascii_of_nat 39.

Fixpoint contains (c : ascii) (s : string) : bool :=
  match s with
  | EmptyString => false
  | String c' s' => Ascii.eqb c' c || contains c s'
  end.

(** Every occurrence of [c] dropped, the other characters kept in order. *)
Fixpoint without (c : ascii) (s : string) : string :=
  match s with
  | EmptyString => EmptyString
  | String c' s' => if Ascii.eqb c' c then without c s' else String c' (without c s')
  end.

Module Java.

(** [replacement] before every character and after the last one: what
    [String.replace] does for an empty [target]. *)
Fixpoint intersperse (replacement s : string) : string :=
  match s with
  | EmptyString => replacement
  | String c s' => replacement ++ String c (intersperse replacement s')
  end.

(** The scan of [String.replace] for a non-empty [target]: [skip] characters
    of a match just replaced are still to be passed over. *)
Fixpoint replaceFrom (skip : nat) (target replacement s : string) : string :=
  match s with
  | EmptyString => EmptyString
  | String c s' =>
      match skip with
      | S k => replaceFrom k target replacement s'
      | O =>
          if String.prefix target s
          then replacement ++ replaceFrom (String.length target - 1) target replacement s'
          else String c (replaceFrom 0 target replacement s')
      end
  end.

(** [s.replace(target, replacement)]: every occurrence of the literal
    [target], leftmost first, non-overlapping. *)
Definition replace (target replacement s : string) : string :=
  match target with
  | EmptyString => intersperse replacement s
  | _ => replaceFrom 0 target replacement s
  end.

End Java.

(** ** Velocity mapping templates *)

Module Vtl.

Inductive Expr :=
| InputBody                                        (* $input.body *)
| Ref (x : string)                                 (* $x *)
| Replace (e : Expr) (target replacement : string) (* e.replace(t, r) *)
| EscapeJavaScript (e : Expr)                      (* $util.escapeJavaScript(e) *)
| ParseJsonField (e : Expr) (field : string).      (* $util.parseJson(e).field *)

Inductive Piece :=
| Text (s : string)
| Subst (e : Expr).

(** A template that renders a JSON object: [#set] directives, then the
    members, the value of each being the text between its quotes. *)
Record Template := {
  directives : list (string * Expr);
  members : list (string * list Piece)
}.

Section Render.
(** The two utilities belong to API Gateway, not to this repository. *)
Variable escapeJavaScript : string -> string.
Variable parseJson : string -> string -> option string.

(** [None]: a reference that nothing defines. *)
Fixpoint eval (env : JsObject.t string) (input : string) (e : Expr) : option string :=
  match e with
  | InputBody => Some input
  | Ref x => JsObject.get x env
  | Replace e' target replacement =>
      option_map (Java.replace target replacement) (eval env input e')
  | EscapeJavaScript e' => option_map escapeJavaScript (eval env input e')
  | ParseJsonField e' field =>
      match eval env input e' with
      | Some s => parseJson s field
      | None => None
      end
  end.

Fixpoint runDirectives (ds : list (string * Expr)) (env : JsObject.t string)
    (input : string) : option (JsObject.t string) :=
  match ds with
  | [] => Some env
  | (x, e) :: ds' =>
      match eval env input e with
      | Some v => runDirectives ds' (JsObject.set x v env) input
      | None => None
      end
  end.

Fixpoint renderPieces (env : JsObject.t string) (input : string) (ps : list Piece)
    : option string :=
  match ps with
  | [] => Some EmptyString
  | Text s :: ps' => option_map (append s) (renderPieces env input ps')
  | Subst e :: ps' =>
      match eval env input e, renderPieces env input ps' with
      | Some v, Some r => Some (v ++ r)
      | _, _ => None
      end
  end.

Fixpoint renderMembers (env : JsObject.t string) (input : string)
    (ms : list (string * list Piece)) : option (JsObject.t string) :=
  match ms with
  | [] => Some []
  | (k, ps) :: ms' =>
      match renderPieces env input ps, renderMembers env input ms' with
      | Some v, Some r => Some ((k, v) :: r)
      | _, _ => None
      end
  end.

(** The members of the rendered object, for the request or response body
    [input]. *)
Definition render (t : Template) (input : string) : option (JsObject.t string) :=
  match runDirectives (directives t) JsObject.empty input with
  | Some env => renderMembers env input (members t)
  | None => None
  end.
End Render.

End Vtl.

(** ** lib/constructs/api-gateway.ts *)

Inductive IntegrationType := AWS | AWS_PROXY | HTTP | HTTP_PROXY | MOCK.

Record StateMachine := { stateMachineArn : string }.

Record Role := {
  assumedBy : string;
  roleDescription : string;
  policy : list PolicyStatement
}.

Record IntegrationResponse := {
  statusCode : string;
  responseTemplates : JsObject.t Vtl.Template
}.

Record Integration := {
  integrationType : IntegrationType;
  integrationHttpMethod : string;
  uri : string;
  credentialsRole : Role;
  requestTemplates : JsObject.t Vtl.Template;
  integrationResponses : list IntegrationResponse
}.

Record MethodResponse := {
  responseStatusCode : string;
  responseModels : JsObject.t string
}.

Record Method := {
  httpMethod : string;
  integration : Integration;
  methodResponses : list MethodResponse
}.

#[local] Set Warnings "-register-all".
Inductive Resource :=
| mkResource (pathPart : string) (methods : list Method) (children : list Resource).

Definition pathPart (r : Resource) := let (p, _, _) := r in p.
Definition methods (r : Resource) := let (_, m, _) := r in m.
Definition children (r : Resource) := let (_, _, c) := r in c.

(** [r.addResource(part)] and [r.addMethod(verb, integration, options)] *)
Definition addResource (child : Resource) (r : Resource) : Resource :=
  mkResource (pathPart r) (methods r) (children r ++ [child])%list.

Definition addMethod (m : Method) (r : Resource) : Resource :=
  mkResource (pathPart r) (methods r ++ [m])%list (children r).

(** Every method of the tree under [r], with the path of its resource;
    [prefix] is the path of the parent. *)
Fixpoint allMethods (prefix : string) (r : Resource) : list (string * Method) :=
  let path := prefix ++ pathPart r in
  (map (fun m => (path, m)) (methods r)
   ++ flat_map (allMethods (path ++ "/")) (children r))%list.

Record CfnOutput := {
  outputId : string;
  outputValue : string;
  outputDescription : string
}.

Record LogGroup := {
  logGroupName : string;
  retention : RetentionDays
}.

Record ReviewBotApiProps := { stateMachine : StateMachine }.

Module ReviewBotApi.

Definition logGroup : LogGroup :=
  {| logGroupName := "/aws/apigateway/PR-Review-Bot-API"; retention := ONE_MONTH |}.

Definition apiRole (props : ReviewBotApiProps) : Role :=
  {| assumedBy := "apigateway.amazonaws.com";
     roleDescription := "Role for API Gateway to invoke Step Functions";
     policy :=
       [ {| allow := true;
            actions := ["states:StartExecution"];
            resources := [stateMachineArn (stateMachine props)] |} ] |}.

(** The [application/json] request template: [$body] is set to
    [$input.body], [$cleaned] to [$body] with the apostrophe replaced by the
    empty string, and the object rendered has the members [input] and
    [stateMachineArn]. *)
Definition requestTemplate (props : ReviewBotApiProps) : Vtl.Template :=
  {| Vtl.directives :=
       [ ("body", Vtl.InputBody);
         ("cleaned", Vtl.Replace (Vtl.Ref "body") "'" EmptyString) ];
     Vtl.members :=
       [ ("input",
           [ Vtl.Text ("{" ++ bs ++ dq ++ "body" ++ bs ++ dq ++ ": ");
             Vtl.Subst (Vtl.EscapeJavaScript (Vtl.Ref "cleaned"));
             Vtl.Text "}" ]);
         ("stateMachineArn", [Vtl.Text (stateMachineArn (stateMachine props))]) ] |}.

(** [JSON.stringify({ executionArn: ..., startDate: ... })] *)
Definition responseTemplate : Vtl.Template :=
  {| Vtl.directives := [];
     Vtl.members :=
       [ ("executionArn", [Vtl.Subst (Vtl.ParseJsonField Vtl.InputBody "executionArn")]);
         ("startDate", [Vtl.Subst (Vtl.ParseJsonField Vtl.InputBody "startDate")]) ] |}.

Definition startExecution (region : string) (props : ReviewBotApiProps) : Integration :=
  {| integrationType := AWS;
     integrationHttpMethod := "POST";
     uri := "arn:aws:apigateway:" ++ region ++ ":states:action/StartExecution";
     credentialsRole := apiRole props;
     requestTemplates := JsObject.literal [("application/json", requestTemplate props)];
     integrationResponses :=
       [ {| statusCode := "200";
            responseTemplates :=
              JsObject.literal [("application/json", responseTemplate)] |} ] |}.

Definition postMethod (region : string) (props : ReviewBotApiProps) : Method :=
  {| httpMethod := "POST";
     integration := startExecution region props;
     methodResponses :=
       [ {| responseStatusCode := "200";
            responseModels := JsObject.literal [("application/json", "Empty")] |} ] |}.

Record t := {
  restApiName : string;
  stageName : string;
  accessLog : LogGroup;
  root : Resource   (* the root resource; its own path part is empty *)
}.

(** [region] is [cdk.Stack.of(scope).region]. *)
Definition constructor (region : string) (props : ReviewBotApiProps) : t :=
  let root := mkResource EmptyString [] [] in
  let webhook := mkResource "webhook" [] [] in
  let webhook := addMethod (postMethod region props) webhook in
  {| restApiName := "PR Review Bot API";
     stageName := "prod";
     accessLog := logGroup;
     root := addResource webhook root |}.

(** The methods a caller can reach, each with its resource path. *)
Definition endpoints (api : t) : list (string * Method) :=
  allMethods EmptyString (root api).

(** The two outputs the construct declares on the stack; [url] and
    [logGroupArn] are the attributes of the API and of its log group, known
    at deployment. *)
Definition outputs (url logGroupArn : string) : list CfnOutput :=
  [ {| outputId := "WebhookUrl";
       outputValue := url ++ "webhook";
       outputDescription := "Webhook URL for PR Review Bot" |};
    {| outputId := "ApiGatewayLogGroup";
       outputValue := logGroupArn;
       outputDescription := "API Gateway Log Group ARN" |} ].

End ReviewBotApi.

(** ** lib/constructs/network.ts *)

Module NetworkConstruct.

Definition vpc : Vpc :=
  {| vpcId := "ReviewBotVPC";
     maxAzs := 2;
     natGateways := 1;
     subnetConfiguration :=
       [ {| subnetName := "public"; subnetType := PUBLIC; cidrMask := 24 |};
         {| subnetName := "private"; subnetType := PRIVATE_WITH_EGRESS; cidrMask := 24 |} ] |}.

End NetworkConstruct.

(** ** The stack *)

(** What the stack takes from the constructs defined in other files of the
    repository (the role, the layers, the state machine and its role), and
    from its environment (the region, and the URL of the API and the ARN of
    its log group as the deployment assigns them). *)
Record Collaborators := {
  region : string;
  apiUrl : string;
  apiLogGroupArn : string;
  lambdaRole : IRole;
  layersRequests : ILayerVersion;
  layersNetworkx : ILayerVersion;
  stateMachineRole : JsObject.t LambdaFunction -> IRole;
  stepFunctions : JsObject.t LambdaFunction -> IRole -> StateMachine
}.

Module AmazonBedrockPrReviewbotStack.

Record t := {
  lambdas : ReviewBotLambda.t;
  machine : StateMachine;
  api : ReviewBotApi.t;
  outputs : list CfnOutput
}.

Definition constructor (c : Collaborators) : t :=
  let lambdas :=
    ReviewBotLambda.constructor
      {| role := lambdaRole c;
         requestsLayer := layersRequests c;
         networkxLayer := layersNetworkx c;
         vpc := NetworkConstruct.vpc |} in
  let smRole := stateMachineRole c (ReviewBotLambda.fns lambdas) in
  let sm := stepFunctions c (ReviewBotLambda.fns lambdas) smRole in
  {| lambdas := lambdas;
     machine := sm;
     api := ReviewBotApi.constructor (region c) {| stateMachine := sm |};
     outputs :=
       (ReviewBotApi.outputs (apiUrl c) (apiLogGroupArn c)
        ++ [ {| outputId := "StateMachineArn";
                outputValue := stateMachineArn sm;
                outputDescription := "State Machine ARN" |} ])%list |}.

(** The worker functions of a deployed stack. *)
Definition workers (c : Collaborators) : JsObject.t LambdaFunction :=
  ReviewBotLambda.fns (lambdas (constructor c)).

End AmazonBedrockPrReviewbotStack.

(** ** Requests through the deployed API *)

Module ApiGateway.
Section Platform.
Variable escapeJavaScript : string -> string.
Variable parseJson : string -> string -> option string.

Definition route (api : ReviewBotApi.t) (path verb : string) : option Method :=
  option_map snd
    (find (fun e => String.eqb (fst e) path && String.eqb (httpMethod (snd e)) verb)
          (ReviewBotApi.endpoints api)).

(** The body of the integration request for a caller's [payload] sent with
    [verb] to [path] as [application/json]. *)
Definition integrationRequest (api : ReviewBotApi.t) (path verb payload : string)
    : option (JsObject.t string) :=
  match route api path verb with
  | Some m =>
      match JsObject.get "application/json" (requestTemplates (integration m)) with
      | Some t => Vtl.render escapeJavaScript parseJson t payload
      | None => None
      end
  | None => None
  end.

(** The [input] member of that request: the input of the execution started. *)
Definition executionInput (api : ReviewBotApi.t) (path verb payload : string)
    : option string :=
  match integrationRequest api path verb payload with
  | Some req => JsObject.get "input" req
  | None => None
  end.

(** The body returned to the caller, for the integration's reply [reply]
    with status [status]. *)
Definition methodResponse (api : ReviewBotApi.t) (path verb status reply : string)
    : option (JsObject.t string) :=
  match route api path verb with
  | Some m =>
      match find (fun r => String.eqb (statusCode r) status)
                 (integrationResponses (integration m)) with
      | Some r =>
          match JsObject.get "application/json" (responseTemplates r) with
          | Some t => Vtl.render escapeJavaScript parseJson t reply
          | None => None
          end
      | None => None
      end
  | None => None
  end.
End Platform.
End ApiGateway.

(** A reference escaping for 7-bit text, after the rules of
    [escapeJavaScript]: the two quotes, the backslash and the slash get a
    backslash in front, the named control characters their letter. *)
Definition escapeChar (c : ascii) : string :=
  let n := nat_of_ascii c in
  if Nat.eqb n 34 then bs ++ dq
  else if Nat.eqb n 39 then bs ++ "'"
  else if Nat.eqb n 92 then bs ++ bs
  else if Nat.eqb n 47 then bs ++ "/"
  else if Nat.eqb n 8 then bs ++ "b"
  else if Nat.eqb n 9 then bs ++ "t"
  else if Nat.eqb n 10 then bs ++ "n"
  else if Nat.eqb n 12 then bs ++ "f"
  else if Nat.eqb n 13 then bs ++ "r"
  else String c EmptyString.

Fixpoint escapeText (s : string) : string :=
  match s with
  | EmptyString => EmptyString
  | String c s' => escapeChar c ++ escapeText s'
  end.

(** ** The orchestrator *)

Module Orchestrator.

(** Modelled from the spec: the workflow state machine of its sections 4.1
    and 5 and the completion record of its section 6.  The construct that
    declares the state machine (constructs/step-functions) is not among the
    sources; the stack only passes it the workers and takes its ARN. *)
Inductive Stage :=
| Ingested | Splitting | Analyzing | Aggregating | Publishing | Notifying
| Succeeded | Failed.

(** Modelled from the spec: the two terminal states. *)
Definition terminal (s : Stage) : bool :=
  match s with
  | Succeeded | Failed => true
  | _ => false
  end.

(** Modelled from the spec: transitions are one-directional; the number of
    transitions a stage is away from a terminal one, at most. *)
Definition remaining (s : Stage) : nat :=
  match s with
  | Ingested => 6
  | Splitting => 5
  | Analyzing => 4
  | Aggregating => 3
  | Publishing => 2
  | Notifying => 1
  | Succeeded | Failed => 0
  end.

(** Modelled from the spec: the data model of its section 3, as far as the
    orchestrator reads it. *)
Record ReviewRequest := {
  repository : option string;
  pullRequest : option nat;
  baseRevision : string;
  headRevision : string;
  diff : string
}.

(** Modelled from the spec: a chunk, its [chunkId] the sequence index. *)
Record Chunk := {
  chunkId : nat;
  content : string
}.

(** Modelled from the spec: the status of a chunk result, with the
    findings or the failure detail. *)
Inductive Outcome :=
| ok (findings : list string)
| failed (detail : string).

(** Modelled from the spec: one result per dispatched chunk. *)
Record ChunkResult := {
  resultOf : nat;
  outcome : Outcome
}.

(** Modelled from the spec: the aggregated review. *)
Record AggregatedReview := {
  reviewFindings : list string;
  summary : string;
  completeness : bool
}.

(** Modelled from the spec: the record the error handler produces. *)
Record ErrorRecord := {
  errorStage : Stage;
  errorKind : string
}.

(** Modelled from the spec: the chunk tasks of an execution and their
    states: not yet dispatched, in flight, and resolved. *)
Record Tasks := {
  pending : list Chunk;
  inFlight : list Chunk;
  results : list ChunkResult
}.

(** Modelled from the spec: every dispatched chunk has one outcome; here,
    every chunk is pending, in flight or resolved, once. *)
Definition accounted (ids : list nat) (t : Tasks) : Prop :=
  Permutation
    (map chunkId (pending t ++ inFlight t) ++ map resultOf (results t))%list ids.

(** Modelled from the spec: no task before the splitter has run, and the
    splitter's chunks awaiting dispatch in its output order. *)
Definition noTasks : Tasks := {| pending := []; inFlight := []; results := [] |}.

Definition dispatched (chunks : list Chunk) : Tasks :=
  {| pending := chunks; inFlight := []; results := [] |}.

(** Modelled from the spec: what can happen while the Analyzing stage
    waits: the next chunk is offered for dispatch, the [n]-th analysis in
    flight ends, or the stage timeout elapses. *)
Inductive Event :=
| Dispatch
| Complete (n : nat)
| StageTimeout.

(** Modelled from the spec: the run-level record. *)
Record Execution := {
  executionId : string;
  stage : Stage;
  request : ReviewRequest;
  tasks : Tasks;
  review : option AggregatedReview;
  published : option string;
  failure : option ErrorRecord
}.

(** Modelled from the spec: what execution completion exposes. *)
Record Completion := {
  completedId : string;
  status : Stage;
  reviewLocation : option string
}.

Section Workflow.
(** The workers, as the capabilities the orchestrator invokes; [None] is a
    fatal failure of the stage. *)
Variable split : ReviewRequest -> option (list Chunk).
Variable analyze : Chunk -> Outcome.
Variable aggregate : list ChunkResult -> option AggregatedReview.
Variable publish : string -> AggregatedReview -> option string.
(** The configured maximum of analyses in flight. *)
Variable maxInFlight : nat.

(** Modelled from the spec: a chunk still unresolved at the stage timeout
    is marked failed, with the timeout as its cause. *)
Definition timedOut (c : Chunk) : ChunkResult :=
  {| resultOf := chunkId c; outcome := failed "timeout" |}.

(** Modelled from the spec: the bounded fan-out of the Analyzing stage,
    admission by a counting semaphore of [maxInFlight] permits. *)
Definition onEvent (t : Tasks) (ev : Event) : Tasks :=
  match ev with
  | Dispatch =>
      match pending t with
      | c :: rest =>
          if Nat.ltb (List.length (inFlight t)) maxInFlight
          then {| pending := rest;
                  inFlight := (inFlight t ++ [c])%list;
                  results := results t |}
          else t
      | [] => t
      end
  | Complete n =>
      match nth_error (inFlight t) n with
      | Some c =>
          {| pending := pending t;
             inFlight := (firstn n (inFlight t) ++ skipn (S n) (inFlight t))%list;
             results :=
               (results t ++ [ {| resultOf := chunkId c; outcome := analyze c |} ])%list |}
      | None => t
      end
  | StageTimeout =>
      {| pending := [];
         inFlight := [];
         results := (results t ++ map timedOut (inFlight t ++ pending t))%list |}
  end.

(** Modelled from the spec: the tasks after a sequence of events. *)
Definition after (events : list Event) (t : Tasks) : Tasks :=
  fold_left onEvent events t.

(** Modelled from the spec: the join barrier; the stage proceeds with the
    collected results once no chunk is pending or in flight. *)
Definition join (t : Tasks) : option (list ChunkResult) :=
  match pending t, inFlight t with
  | [], [] => Some (results t)
  | _, _ => None
  end.

(** Modelled from the spec: [start], refused for a request without its
    repository or pull-request identifier. *)
Definition start (id : string) (req : ReviewRequest) : option Execution :=
  match repository req, pullRequest req with
  | Some _, Some _ =>
      Some {| executionId := id; stage := Ingested; request := req;
              tasks := noTasks; review := None; published := None;
              failure := None |}
  | _, _ => None
  end.

(** Modelled from the spec: entering a stage, the fatal failure of the
    current one, and the registration of chunk tasks. *)
Definition enter (s : Stage) (e : Execution) : Execution :=
  {| executionId := executionId e; stage := s; request := request e;
     tasks := tasks e; review := review e; published := published e;
     failure := failure e |}.

Definition fail (e : Execution) : Execution :=
  {| executionId := executionId e; stage := Failed; request := request e;
     tasks := tasks e; review := review e; published := published e;
     failure := Some {| errorStage := stage e; errorKind := "fatal" |} |}.

Definition withTasks (t : Tasks) (e : Execution) : Execution :=
  {| executionId := executionId e; stage := stage e; request := request e;
     tasks := t; review := review e; published := published e;
     failure := failure e |}.

(** Modelled from the spec: one transition of the state machine; [events]
    is what happens during the Analyzing stage before its timeout. *)
Definition advance (events : list Event) (e : Execution) : Execution :=
  match stage e with
  | Ingested => enter Splitting e
  | Splitting =>
      match split (request e) with
      | Some [] => enter Aggregating e
      | Some chunks => enter Analyzing (withTasks (dispatched chunks) e)
      | None => fail e
      end
  | Analyzing =>
      enter Aggregating
        (withTasks (after (events ++ [StageTimeout])%list (tasks e)) e)
  | Aggregating =>
      match join (tasks e) with
      | Some rs =>
          match aggregate rs with
          | Some r =>
              {| executionId := executionId e; stage := Publishing;
                 request := request e; tasks := tasks e; review := Some r;
                 published := published e; failure := failure e |}
          | None => fail e
          end
      | None => fail e
      end
  | Publishing =>
      match review e with
      | Some r =>
          match publish (executionId e) r with
          | Some location =>
              {| executionId := executionId e; stage := Notifying;
                 request := request e; tasks := tasks e; review := review e;
                 published := Some location; failure := failure e |}
          | None => fail e
          end
      | None => fail e
      end
  | Notifying => enter Succeeded e
  | Succeeded | Failed => e
  end.

(** Modelled from the spec: [n] transitions in a row. *)
Fixpoint advanceTimes (n : nat) (events : list Event) (e : Execution) : Execution :=
  match n with
  | O => e
  | S n' => advanceTimes n' events (advance events e)
  end.

(** Modelled from the spec: the stage joins on all dispatched chunk
    outcomes before proceeding.  Where the chunk tasks of an execution stand,
    by its stage: none before the splitter has run; the splitter's chunks, all
    pending, on entry to Analyzing; from Aggregating on, the join open on one
    result per chunk of the splitter's output; and from Publishing on, the
    review being the aggregate of exactly these results. *)
Definition joined (e : Execution) : Prop :=
  match stage e with
  | Ingested | Splitting => tasks e = noTasks
  | Analyzing =>
      exists chunks,
        split (request e) = Some chunks /\ tasks e = dispatched chunks
  | Aggregating =>
      exists chunks,
        split (request e) = Some chunks
        /\ join (tasks e) = Some (results (tasks e))
        /\ Permutation (map resultOf (results (tasks e))) (map chunkId chunks)
  | Publishing | Notifying | Succeeded =>
      exists chunks r,
        split (request e) = Some chunks
        /\ join (tasks e) = Some (results (tasks e))
        /\ Permutation (map resultOf (results (tasks e))) (map chunkId chunks)
        /\ aggregate (results (tasks e)) = Some r
        /\ review e = Some r
  | Failed => True
  end.

(** Modelled from the spec: the published review location exists on
    success.  An execution past Publishing holds the location its review was
    published at; one that failed, or has not published yet, holds none. *)
Definition receipted (e : Execution) : Prop :=
  match stage e with
  | Notifying | Succeeded =>
      exists r location,
        publish (executionId e) r = Some location
        /\ published e = Some location
  | _ => published e = None
  end.

(** Modelled from the spec: what a completed execution exposes. *)
Definition completion (e : Execution) : option Completion :=
  if terminal (stage e)
  then Some {| completedId := executionId e;
               status := stage e;
               reviewLocation := published e |}
  else None.
End Workflow.

End Orchestrator.

(** ** The pipeline components of the overview *)

Inductive Component :=
| WebhookIngestion
| ChunkSplitting
| ChunkAnalysis
| ResultAggregation
| Publication
| Notification
| ErrorHandling.

Definition Component_eqb (a b : Component) : bool :=
  match a, b with
  | WebhookIngestion, WebhookIngestion
  | ChunkSplitting, ChunkSplitting
  | ChunkAnalysis, ChunkAnalysis
  | ResultAggregation, ResultAggregation
  | Publication, Publication
  | Notification, Notification
  | ErrorHandling, ErrorHandling => true
  | _, _ => false
  end.

(** The component a worker serves, by its key in [functions]. *)
Definition componentOf (key : string) : option Component :=
  if String.eqb key "initialProcessing" then Some WebhookIngestion
  else if String.eqb key "splitPr" then Some ChunkSplitting
  else if String.eqb key "processChunk" then Some ChunkAnalysis
  else if String.eqb key "aggregateResults" then Some ResultAggregation
  else if String.eqb key "postPrComment" then Some Publication
  else if String.eqb key "sendSlackNotification" then Some Notification
  else if String.eqb key "handleError" then Some ErrorHandling
  else None.

(** The workers that back component [c]. *)
Definition backing (c : Component) (fs : JsObject.t LambdaFunction)
    : list (string * LambdaFunction) :=
  filter (fun e => match componentOf (fst e) with
                   | Some c' => Component_eqb c c'
                   | None => false
                   end) fs.

(** A setting is configurable when two configurations give it two values. *)
Definition configurable {A} (setting : ReviewBotLambdaProps -> A) : Prop :=
  exists p p', setting p <> setting p'.

Definition workerTimeout (key : string) (props : ReviewBotLambdaProps)
    : option (option Duration.t) :=
  option_map Fn.timeout (JsObject.get key (ReviewBotLambda.functions props)).

Definition workerMemory (key : string) (props : ReviewBotLambdaProps)
    : option (option nat) :=
  option_map Fn.memorySize (JsObject.get key (ReviewBotLambda.functions props)).

(** The properties a worker definition may add to the common ones, and
    those among them that place the worker in the VPC. *)
Definition ownKeys : list string :=
  [ "functionName"; "description"; "code"; "handler"; "timeout"; "memorySize";
    "layers"; "vpc"; "vpcSubnets"; "securityGroups" ].

Definition vpcKeys : list string := [ "vpc"; "vpcSubnets"; "securityGroups" ].

(** Rows of two, the last one of one when the length is odd. *)
Fixpoint pairs {A} (l : list A) : list (list A) :=
  match l with
  | [] => []
  | [a] => [[a]]
  | a :: b :: l' => [a; b] :: pairs l'
  end.
(** The text of the [input] member around the escaped payload. *)
Definition wrapBody (escaped : string) : string :=
  "{" ++ bs ++ dq ++ "body" ++ bs ++ dq ++ ": " ++ escaped ++ "}".

(** ** Sample configurations *)

Definition sampleProps : ReviewBotLambdaProps :=
  {| role := {| roleArn := "arn:aws:iam::111122223333:role/ReviewBotRole" |};
     requestsLayer := {| layerVersionArn := "requests" |};
     networkxLayer := {| layerVersionArn := "networkx" |};
     vpc := NetworkConstruct.vpc |}.

Definition sampleCollaborators : Collaborators :=
  {| region := "eu-west-1";
     apiUrl := "https://abc123.execute-api.eu-west-1.amazonaws.com/prod/";
     apiLogGroupArn :=
       "arn:aws:logs:eu-west-1:111122223333:log-group:/aws/apigateway/PR-Review-Bot-API";
     lambdaRole := role sampleProps;
     layersRequests := requestsLayer sampleProps;
     layersNetworkx := networkxLayer sampleProps;
     stateMachineRole := fun _ => {| roleArn := "arn:aws:iam::111122223333:role/StateMachineRole" |};
     stepFunctions := fun _ _ =>
       {| stateMachineArn := "arn:aws:states:eu-west-1:111122223333:stateMachine:PRReview" |} |}.

(** A reply of StartExecution, read field by field. *)
Definition sampleReply (reply field : string) : option string :=
  if String.eqb field "executionArn" then Some ("arn:aws:states:execution:" ++ reply)
  else if String.eqb field "startDate" then Some "1.7E9"
  else None.

(** Sample workers for the orchestrator: two chunks, every analysis clean. *)
Definition sampleRequest : Orchestrator.ReviewRequest :=
  {| Orchestrator.repository := Some "octo/reviewed";
     Orchestrator.pullRequest := Some 42;
     Orchestrator.baseRevision := "a1";
     Orchestrator.headRevision := "b2";
     Orchestrator.diff := "diff" |}.

Definition sampleSplit (_ : Orchestrator.ReviewRequest) : option (list Orchestrator.Chunk) :=
  Some [ {| Orchestrator.chunkId := 0; Orchestrator.content := "x" |};
         {| Orchestrator.chunkId := 1; Orchestrator.content := "y" |} ].

Definition sampleAnalyze (_ : Orchestrator.Chunk) : Orchestrator.Outcome :=
  Orchestrator.ok [].

Definition sampleAggregate (rs : list Orchestrator.ChunkResult)
    : option Orchestrator.AggregatedReview :=
  Some {| Orchestrator.reviewFindings := [];
          Orchestrator.summary := "clean";
          Orchestrator.completeness := true |}.

Definition samplePublish (id : string) (_ : Orchestrator.AggregatedReview) : option string :=
  Some ("review of " ++ id).


(** ** Further readings of the constructs *)

Definition fnHandler (f : LambdaFunction) : option string :=
  match Fn.prop "handler" f with Some (VString s) => Some s | _ => None end.

Definition fnCode (f : LambdaFunction) : option string :=
  match Fn.prop "code" f with Some (VAsset p) => Some p | _ => None end.





(** A key that an object keeps as an own property in creation order: not
    [__proto__], and not an array index; here, conservatively, not starting
    with a digit. *)
Definition isDigit (c : ascii) : bool :=
  Nat.leb 48 (nat_of_ascii c) && Nat.leb (nat_of_ascii c) 57.

Definition ordinaryKey (k : string) : bool :=
  negb (String.eqb k "__proto__")
  && match k with
     | EmptyString => true
     | String c _ => negb (isDigit c)
     end.

(** The width of a dashboard row, in grid units. *)
Definition rowWidth (r : list GraphWidget) : nat := list_sum (map width r).

(** camelCase to kebab-case: a capital becomes a hyphen and its small
    letter. *)
Definition isUpper (c : ascii) : bool :=
  Nat.leb 65 (nat_of_ascii c) && Nat.leb (nat_of_ascii c) 90.

Fixpoint kebab (s : string) : string :=
  match s with
  | EmptyString => EmptyString
  | String c s' =>
      if isUpper c
      then String "-" (String (ascii_of_nat (nat_of_ascii c + 32)) (kebab s'))
      else String c (kebab s')
  end.

(** * Properties *)

(** ** Objects *)

Lemma get_In {V} (k : string) (v : V) (o : JsObject.t V) :
  JsObject.get k o = Some v -> In (k, v) o.
Proof.
  induction o as [|[k' v'] o IH]; simpl; [discriminate|].
  destruct (String.eqb_spec k k') as [->|_].
  - intros [= ->]. now left.
  - intros H. right. now apply IH.
Qed.

(** The seven entries of [functions], in the order of their assignments. *)
Lemma functions_entries props :
  JsObject.entries (ReviewBotLambda.functions props) =
  [ ("initialProcessing", ReviewBotLambda.initialProcessing props);
    ("splitPr", ReviewBotLambda.splitPr props);
    ("processChunk", ReviewBotLambda.processChunk props);
    ("aggregateResults", ReviewBotLambda.aggregateResults props);
    ("postPrComment", ReviewBotLambda.postPrComment props);
    ("sendSlackNotification", ReviewBotLambda.sendSlackNotification props);
    ("handleError", ReviewBotLambda.handleError props) ].
Proof. reflexivity. Qed.

(** A worker found under [key] is one of the seven definitions. *)
Lemma functions_cases props key f :
  JsObject.get key (ReviewBotLambda.functions props) = Some f ->
  (key = "initialProcessing" /\ f = ReviewBotLambda.initialProcessing props)
  \/ (key = "splitPr" /\ f = ReviewBotLambda.splitPr props)
  \/ (key = "processChunk" /\ f = ReviewBotLambda.processChunk props)
  \/ (key = "aggregateResults" /\ f = ReviewBotLambda.aggregateResults props)
  \/ (key = "postPrComment" /\ f = ReviewBotLambda.postPrComment props)
  \/ (key = "sendSlackNotification" /\ f = ReviewBotLambda.sendSlackNotification props)
  \/ (key = "handleError" /\ f = ReviewBotLambda.handleError props).
Proof.
  intros H. apply get_In in H.
  change (ReviewBotLambda.functions props)
    with (JsObject.entries (ReviewBotLambda.functions props)) in H.
  rewrite functions_entries in H. simpl in H.
  repeat (destruct H as [H|H]; [injection H as <- <-; tauto|]).
  contradiction.
Qed.

Ltac each_worker H :=
  apply functions_cases in H;
  repeat (destruct H as [[-> ->]|H]); [ .. | destruct H as [-> ->] ].

(** ** The workers of a stack *)

Lemma workers_functions (c : Collaborators) :
  AmazonBedrockPrReviewbotStack.workers c =
  ReviewBotLambda.functions
    {| role := lambdaRole c;
       requestsLayer := layersRequests c;
       networkxLayer := layersNetworkx c;
       vpc := NetworkConstruct.vpc |}.
Proof. reflexivity. Qed.

(** C1. Every deployed stack has seven worker functions, under seven
    distinct keys and with seven distinct function names; each of them serves
    one of the seven pipeline components (webhook ingestion, chunk splitting,
    chunk analysis, result aggregation, publication, notification, error
    handling), and each component is backed by exactly one of them. *)
Theorem one_worker_per_component (c : Collaborators) :
  let fs := AmazonBedrockPrReviewbotStack.workers c in
  List.length fs = 7
  /\ NoDup (JsObject.keys fs)
  /\ NoDup (map (fun e => Fn.functionName (snd e)) fs)
  /\ Forall (fun e => exists comp, componentOf (fst e) = Some comp) fs
  /\ forall comp : Component, List.length (backing comp fs) = 1.
Proof.
  cbv zeta. rewrite workers_functions.
  split; [reflexivity|].
  split; [repeat constructor; simpl; intuition discriminate|].
  split; [repeat constructor; simpl; intuition discriminate|].
  split; [repeat constructor; eexists; reflexivity|].
  intros []; reflexivity.
Qed.

(** C5. Whatever the configuration, the chunk-processing worker has a
    timeout, and it is ten minutes (600 seconds): an analysis attempt is an
    invocation of that worker, so no attempt outlasts it. *)
Theorem process_chunk_timeout_bounded (props : ReviewBotLambdaProps) :
  exists f d,
    JsObject.get "processChunk" (ReviewBotLambda.functions props) = Some f
    /\ Fn.timeout f = Some d
    /\ d = Duration.minutes 10
    /\ Duration.toSeconds d = 600.
Proof.
  exists (ReviewBotLambda.processChunk props), (Duration.minutes 10).
  repeat split.
Qed.

(** ** Timeouts and the configuration surface *)

Lemma workerTimeout_fixed key (p p' : ReviewBotLambdaProps) :
  workerTimeout key p = workerTimeout key p'.
Proof.
  unfold workerTimeout.
  destruct (JsObject.get key (ReviewBotLambda.functions p)) as [f|] eqn:E.
  - each_worker E; reflexivity.
  - revert E. simpl.
    repeat (destruct (String.eqb key _); [discriminate|]). reflexivity.
Qed.

Lemma workerMemory_fixed key (p p' : ReviewBotLambdaProps) :
  workerMemory key p = workerMemory key p'.
Proof.
  unfold workerMemory.
  destruct (JsObject.get key (ReviewBotLambda.functions p)) as [f|] eqn:E.
  - each_worker E; reflexivity.
  - revert E. simpl.
    repeat (destruct (String.eqb key _); [discriminate|]). reflexivity.
Qed.

(** C4, as stated, fails: the timeout of the chunk-processing worker is not
    configurable, no two configurations give it different values. *)
Lemma analysis_timeout_not_configurable :
  ~ configurable (workerTimeout "processChunk").
Proof.
  intros (p & p' & H). apply H. apply workerTimeout_fixed.
Qed.

(** C4, amended. The per-attempt analysis timeout is not supplied through
    the configuration surface: it is a constant of the worker definitions, ten
    minutes for the chunk-processing worker (five for the splitter), the same
    under every configuration of the worker construct and in every deployed
    stack, as are the timeout and the memory size of every worker. *)
Theorem analysis_timeout_is_fixed :
  (forall props,
     workerTimeout "processChunk" props = Some (Some (Duration.minutes 10))
     /\ workerTimeout "splitPr" props = Some (Some (Duration.minutes 5)))
  /\ (forall key p p',
        workerTimeout key p = workerTimeout key p'
        /\ workerMemory key p = workerMemory key p')
  /\ (forall (c c' : Collaborators) key,
        option_map Fn.timeout
          (JsObject.get key (AmazonBedrockPrReviewbotStack.workers c))
        = option_map Fn.timeout
            (JsObject.get key (AmazonBedrockPrReviewbotStack.workers c'))
        /\ option_map Fn.memorySize
             (JsObject.get key (AmazonBedrockPrReviewbotStack.workers c))
           = option_map Fn.memorySize
               (JsObject.get key (AmazonBedrockPrReviewbotStack.workers c'))).
Proof.
  split; [intros; split; reflexivity|].
  split; [intros; split; [apply workerTimeout_fixed|apply workerMemory_fixed]|].
  intros c c' key. rewrite !workers_functions.
  split; [apply workerTimeout_fixed|apply workerMemory_fixed].
Qed.

(** ** Layers *)

(** C6. When the requests layer and the networkx layer are two layers, the
    worker registered as [splitPr] is the one worker that carries the networkx
    layer, next to the requests layer; every other worker carries the requests
    layer alone or no layer at all. *)
Theorem networkx_layer_only_on_splitter (props : ReviewBotLambdaProps)
    (Hlayers : requestsLayer props <> networkxLayer props)
    (key : string) (f : LambdaFunction)
    (Hf : JsObject.get key (ReviewBotLambda.functions props) = Some f) :
  (In (networkxLayer props) (Fn.layers f) <-> key = "splitPr")
  /\ (key = "splitPr" -> Fn.layers f = [requestsLayer props; networkxLayer props])
  /\ (key <> "splitPr" ->
      Fn.layers f = [requestsLayer props] \/ Fn.layers f = []).
Proof.
  each_worker Hf; cbn; repeat split; intros;
    try discriminate; try congruence; auto; simpl in *; intuition congruence.
Qed.

Lemma networkx_layer_only_on_splitter_witness :
  (In (networkxLayer sampleProps)
      (Fn.layers (ReviewBotLambda.processChunk sampleProps)) <-> "processChunk" = "splitPr")
  /\ ("processChunk" = "splitPr" ->
      Fn.layers (ReviewBotLambda.processChunk sampleProps)
      = [requestsLayer sampleProps; networkxLayer sampleProps])
  /\ ("processChunk" <> "splitPr" ->
      Fn.layers (ReviewBotLambda.processChunk sampleProps) = [requestsLayer sampleProps]
      \/ Fn.layers (ReviewBotLambda.processChunk sampleProps) = []).
Proof.
  apply (networkx_layer_only_on_splitter sampleProps).
  - simpl. discriminate.
  - reflexivity.
Defined.

(** ** The shared configuration *)

Lemma commonProps_entries props :
  JsObject.entries (ReviewBotLambda.commonProps props) =
  [ ("runtime", VRuntime PYTHON_3_12);
    ("role", VRole (role props));
    ("tracing", VTracing DISABLED);
    ("logRetention", VRetention ONE_MONTH);
    ("environment",
      VEnvironment [ ("POWERTOOLS_SERVICE_NAME", "pr-reviewer"); ("LOG_LEVEL", "INFO") ]) ].
Proof. reflexivity. Qed.

(** C10. Every worker of [ReviewBotLambda] runs on Python 3.12 under the
    role of the props, with tracing disabled, one month of log retention and
    an environment that holds POWERTOOLS_SERVICE_NAME = pr-reviewer and
    LOG_LEVEL = INFO.  Each of its properties is either a common one, with the
    common value, or one of name, description, code, handler, timeout, memory
    size, layers and the three properties of VPC placement, and these three
    occur on the publisher only. *)
Theorem shared_configuration (props : ReviewBotLambdaProps)
    (key : string) (f : LambdaFunction)
    (Hf : JsObject.get key (ReviewBotLambda.functions props) = Some f) :
  Fn.runtime f = Some PYTHON_3_12
  /\ Fn.role f = Some (role props)
  /\ Fn.tracing f = Some DISABLED
  /\ Fn.logRetention f = Some ONE_MONTH
  /\ JsObject.get "POWERTOOLS_SERVICE_NAME" (Fn.environment f) = Some "pr-reviewer"
  /\ JsObject.get "LOG_LEVEL" (Fn.environment f) = Some "INFO"
  /\ (forall p v, JsObject.get p (ReviewBotLambda.commonProps props) = Some v ->
                  Fn.prop p f = Some v)
  /\ (forall p v, Fn.prop p f = Some v ->
        JsObject.get p (ReviewBotLambda.commonProps props) = Some v
        \/ (JsObject.get p (ReviewBotLambda.commonProps props) = None
            /\ In p ownKeys
            /\ (In p vpcKeys -> key = "postPrComment"))).
Proof.
  do 6 (split; [each_worker Hf; reflexivity|]).
  split.
  - intros p v Hc. apply get_In in Hc.
    change (ReviewBotLambda.commonProps props)
      with (JsObject.entries (ReviewBotLambda.commonProps props)) in Hc.
    rewrite commonProps_entries in Hc. simpl in Hc.
    repeat (destruct Hc as [Hc|Hc]; [injection Hc as <- <-; each_worker Hf; reflexivity|]).
    contradiction.
  - intros p v Hp. unfold Fn.prop in Hp. apply get_In in Hp.
    each_worker Hf; cbn in Hp;
      repeat (destruct Hp as [Hp|Hp];
              [injection Hp as <- <-;
               first [ left; reflexivity
                     | right; split; [reflexivity|];
                       split; [simpl; tauto|];
                       simpl; intros; first [reflexivity | intuition discriminate] ]
              |]);
      contradiction.
Qed.

Lemma shared_configuration_witness :
  let f := ReviewBotLambda.postPrComment sampleProps in
  Fn.runtime f = Some PYTHON_3_12
  /\ Fn.role f = Some (role sampleProps)
  /\ Fn.tracing f = Some DISABLED
  /\ Fn.logRetention f = Some ONE_MONTH
  /\ JsObject.get "POWERTOOLS_SERVICE_NAME" (Fn.environment f) = Some "pr-reviewer"
  /\ JsObject.get "LOG_LEVEL" (Fn.environment f) = Some "INFO"
  /\ (forall p v, JsObject.get p (ReviewBotLambda.commonProps sampleProps) = Some v ->
                  Fn.prop p f = Some v)
  /\ (forall p v, Fn.prop p f = Some v ->
        JsObject.get p (ReviewBotLambda.commonProps sampleProps) = Some v
        \/ (JsObject.get p (ReviewBotLambda.commonProps sampleProps) = None
            /\ In p ownKeys
            /\ (In p vpcKeys -> "postPrComment" = "postPrComment"))).
Proof.
  apply (shared_configuration sampleProps "postPrComment"). reflexivity.
Defined.

(** ** The dashboard *)

Lemma pairs_ind2 {A} (P : list A -> Prop) :
  P [] -> (forall a, P [a]) -> (forall a b l, P l -> P (a :: b :: l)) ->
  forall l, P l.
Proof.
  intros H0 H1 H2.
  fix IH 1. intros [|a [|b l]]; [exact H0|apply H1|apply H2, IH].
Qed.

Lemma concat_pairs {A} (l : list A) : concat (pairs l) = l.
Proof.
  induction l as [| a | a b l IH] using pairs_ind2; simpl; congruence.
Qed.

Lemma pairs_row_sizes {A} (l : list A) :
  Forall (fun r => 1 <= List.length r <= 2) (pairs l).
Proof.
  induction l as [| a | a b l IH] using pairs_ind2; simpl;
    repeat constructor; assumption.
Qed.

Lemma pairs_even {A} (l : list A) :
  Nat.odd (List.length l) = false ->
  Forall (fun r => List.length r = 2) (pairs l).
Proof.
  induction l as [| a | a b l IH] using pairs_ind2; [constructor|discriminate|].
  cbn [pairs List.length]. rewrite Nat.odd_succ_succ.
  intros H. constructor; [reflexivity|auto].
Qed.

Lemma pairs_odd {A} (l : list A) :
  Nat.odd (List.length l) = true ->
  exists front w,
    pairs l = (front ++ [[w]])%list
    /\ Forall (fun r => List.length r = 2) front.
Proof.
  induction l as [| a | a b l IH] using pairs_ind2.
  - discriminate.
  - intros _. exists [], a. split; [reflexivity|constructor].
  - cbn [pairs List.length]. rewrite Nat.odd_succ_succ.
    intros H. destruct (IH H) as (front & w & -> & Hf).
    exists ([a; b] :: front), w. split; [reflexivity|].
    constructor; [reflexivity|assumption].
Qed.

Lemma pairs_step {A} (l : list A) :
  l <> [] -> pairs l = firstn 2 l :: pairs (skipn 2 l).
Proof.
  destruct l as [|a [|b l]]; [congruence|reflexivity..].
Qed.

Lemma slice_two {A} (i : nat) (l : list A) :
  slice i (i + 2) l = firstn 2 (skipn i l).
Proof.
  unfold slice. replace (i + 2 - i) with 2 by lia. reflexivity.
Qed.

Lemma skipn_nonempty {A} (i : nat) (l : list A) :
  i < List.length l -> skipn i l <> [].
Proof.
  intros H E. apply (f_equal (@List.length A)) in E.
  rewrite length_skipn in E. simpl in E. lia.
Qed.

Lemma widgetsOf_map (fs : JsObject.t LambdaFunction) :
  ReviewBotLambda.widgetsOf fs = map ReviewBotLambda.graphWidget (JsObject.entries fs).
Proof.
  unfold ReviewBotLambda.widgetsOf, JsObject.entries.
  enough (G : forall acc,
             fold_left (fun ws e => (ws ++ [ReviewBotLambda.graphWidget e])%list) fs acc
             = (acc ++ map ReviewBotLambda.graphWidget fs)%list)
    by apply (G []).
  induction fs as [|e fs IH]; intros acc; simpl.
  - now rewrite app_nil_r.
  - rewrite IH, <- app_assoc. reflexivity.
Qed.

(** With fuel for every remaining row the loop ends, having added the rows
    of two of the widgets from index [i] on. *)
Lemma addRows_pairs (ws : list GraphWidget) :
  forall fuel i d,
    List.length ws - i <= 2 * fuel ->
    ReviewBotLambda.addRows fuel i ws d =
    Some {| dashboardName := dashboardName d;
            rows := (rows d ++ pairs (skipn i ws))%list |}.
Proof.
  induction fuel as [|fuel IH]; intros i d Hfuel.
  - simpl. destruct (Nat.ltb_spec i (List.length ws)) as [Hlt|Hge]; [lia|].
    rewrite skipn_all2 by lia. simpl. rewrite app_nil_r. now destruct d.
  - cbn [ReviewBotLambda.addRows].
    destruct (Nat.ltb_spec i (List.length ws)) as [Hlt|Hge].
    + rewrite IH by lia. rewrite slice_two.
      pose proof (skipn_nonempty i ws Hlt) as Hne.
      rewrite (pairs_step (skipn i ws) Hne).
      rewrite skipn_skipn, (Nat.add_comm 2 i).
      unfold addWidgets.
      destruct (firstn 2 (skipn i ws)) as [|w r] eqn:E.
      * destruct (skipn i ws) as [|x [|y t]]; [congruence|discriminate..].
      * simpl. rewrite <- app_assoc. reflexivity.
    + rewrite skipn_all2 by lia. simpl. rewrite app_nil_r. now destruct d.
Qed.

(** C9. [createCloudWatchDashboard] ends for every [functions] map.  It
    makes one graph widget per entry, in the order of the entries; the rows of
    the dashboard, read in order, are exactly these widgets, each once; a row
    holds one or two widgets; for an odd number of entries every row but the
    last holds two and the last holds one, for an even number every row holds
    two.  For the seven workers of the construct the rows hold 2, 2, 2 and 1
    widgets. *)
Theorem dashboard_rows_of_two :
  (forall fs : JsObject.t LambdaFunction,
     exists d,
       ReviewBotLambda.createCloudWatchDashboard fs = Some d
       /\ ReviewBotLambda.widgetsOf fs
          = map ReviewBotLambda.graphWidget (JsObject.entries fs)
       /\ concat (rows d) = ReviewBotLambda.widgetsOf fs
       /\ Forall (fun r => 1 <= List.length r <= 2) (rows d)
       /\ (Nat.odd (List.length (JsObject.entries fs)) = true ->
           exists front w,
             rows d = (front ++ [[w]])%list
             /\ Forall (fun r => List.length r = 2) front)
       /\ (Nat.odd (List.length (JsObject.entries fs)) = false ->
           Forall (fun r => List.length r = 2) (rows d)))
  /\ (forall props,
        option_map (fun d => map (@List.length GraphWidget) (rows d))
                   (ReviewBotLambda.dashboard (ReviewBotLambda.constructor props))
        = Some [2; 2; 2; 1]).
Proof.
  split; [|reflexivity].
  intros fs. unfold ReviewBotLambda.createCloudWatchDashboard.
  rewrite addRows_pairs by lia.
  eexists. split; [reflexivity|]. cbn [rows skipn app].
  split; [apply widgetsOf_map|].
  split; [apply concat_pairs|].
  split; [apply pairs_row_sizes|].
  split; intros Hodd; [apply pairs_odd|apply pairs_even];
    rewrite widgetsOf_map, length_map; exact Hodd.
Qed.

Lemma dashboard_rows_of_two_witness :
  exists d,
    ReviewBotLambda.createCloudWatchDashboard (ReviewBotLambda.functions sampleProps)
    = Some d
    /\ exists front w,
         rows d = (front ++ [[w]])%list
         /\ Forall (fun r => List.length r = 2) front.
Proof.
  destruct (proj1 dashboard_rows_of_two (ReviewBotLambda.functions sampleProps))
    as (d & Hd & _ & _ & _ & Hodd & _).
  exists d. split; [exact Hd|]. apply Hodd. reflexivity.
Defined.

(** ** Apostrophes *)

Lemma replace_apostrophe (s : string) :
  Java.replace "'" EmptyString s = without apostrophe s.
Proof.
  unfold Java.replace.
  induction s as [|c s IH]; [reflexivity|].
  cbn [Java.replaceFrom without String.prefix].
  destruct (ascii_dec "'" c) as [<-|Hne].
  - change (Ascii.eqb "'" apostrophe) with true. cbn.
    replace (String.prefix EmptyString s) with true by (now destruct s).
    exact IH.
  - destruct (Ascii.eqb_spec c apostrophe) as [->|_].
    + now contradiction Hne.
    + now rewrite IH.
Qed.

Lemma contains_app (c : ascii) (a b : string) :
  contains c (a ++ b) = contains c a || contains c b.
Proof.
  induction a as [|x a IH]; simpl; [reflexivity|].
  now rewrite IH, orb_assoc.
Qed.

Lemma contains_without (c : ascii) (s : string) :
  contains c (without c s) = false.
Proof.
  induction s as [|x s IH]; simpl; [reflexivity|].
  destruct (Ascii.eqb x c) eqn:E; simpl; [assumption|].
  now rewrite E.
Qed.

Lemma without_absent (c : ascii) (s : string) :
  contains c s = false -> without c s = s.
Proof.
  induction s as [|x s IH]; simpl; [reflexivity|].
  destruct (Ascii.eqb x c); simpl; [discriminate|].
  intros H. now rewrite IH.
Qed.

Lemma without_present (c : ascii) (s : string) :
  contains c s = true -> without c s <> s.
Proof.
  intros H E. rewrite <- E, contains_without in H. discriminate.
Qed.

Lemma escapeChar_apostrophe (c : ascii) :
  Ascii.eqb c apostrophe = false -> contains apostrophe (escapeChar c) = false.
Proof.
  intros H. unfold escapeChar.
  destruct (Nat.eqb_spec (nat_of_ascii c) 39) as [E|_].
  - apply (f_equal ascii_of_nat) in E. rewrite ascii_nat_embedding in E.
    subst c. discriminate.
  - repeat (destruct (Nat.eqb _ _); [reflexivity|]).
    simpl. now rewrite H.
Qed.

Lemma escapeText_apostrophe (s : string) :
  contains apostrophe s = false -> contains apostrophe (escapeText s) = false.
Proof.
  induction s as [|c s IH]; simpl; [reflexivity|].
  intros H. apply orb_false_iff in H as [Hc Hs].
  rewrite contains_app, escapeChar_apostrophe, IH by assumption. reflexivity.
Qed.

(** ** The webhook *)

Lemma append_empty_r (s : string) : s ++ EmptyString = s.
Proof. induction s as [|c s IH]; simpl; congruence. Qed.

Section Webhook.
Variable escapeJavaScript : string -> string.
Variable parseJson : string -> string -> option string.

Lemma webhook_endpoints (region : string) (props : ReviewBotApiProps) :
  ReviewBotApi.endpoints (ReviewBotApi.constructor region props)
  = [("/webhook", ReviewBotApi.postMethod region props)].
Proof. reflexivity. Qed.

Lemma webhook_route (region : string) (props : ReviewBotApiProps) (path verb : string) :
  ApiGateway.route (ReviewBotApi.constructor region props) path verb
  = if String.eqb "/webhook" path && String.eqb "POST" verb
    then Some (ReviewBotApi.postMethod region props)
    else None.
Proof.
  unfold ApiGateway.route. rewrite webhook_endpoints. cbn [find fst snd httpMethod ReviewBotApi.postMethod].
  now destruct (String.eqb "/webhook" path && String.eqb "POST" verb).
Qed.

Lemma webhook_request (region : string) (props : ReviewBotApiProps) (payload : string) :
  ApiGateway.integrationRequest escapeJavaScript parseJson (ReviewBotApi.constructor region props) "/webhook" "POST" payload
  = Some [ ("input", wrapBody (escapeJavaScript (without apostrophe payload)));
           ("stateMachineArn", stateMachineArn (stateMachine props)) ].
Proof.
  unfold ApiGateway.integrationRequest.
  rewrite webhook_route. cbn.
  rewrite append_empty_r.
  change (Java.replaceFrom 0 "'" EmptyString payload)
    with (Java.replace "'" EmptyString payload).
  rewrite replace_apostrophe. reflexivity.
Qed.

Lemma webhook_input (region : string) (props : ReviewBotApiProps) (payload : string) :
  ApiGateway.executionInput escapeJavaScript parseJson (ReviewBotApi.constructor region props) "/webhook" "POST" payload
  = Some (wrapBody (escapeJavaScript (without apostrophe payload))).
Proof.
  unfold ApiGateway.executionInput.
  rewrite webhook_request. reflexivity.
Qed.

Lemma wrapBody_apostrophe (s : string) :
  contains apostrophe (wrapBody s) = contains apostrophe s.
Proof.
  unfold wrapBody. cbn. rewrite contains_app. cbn. apply orb_false_r.
Qed.

(** C2. The API of a deployed stack has one method in all: POST on
    /webhook.  Its integration is of type AWS, calls the StartExecution action
    of Step Functions under a role allowed that action on the stack's state
    machine only; the request it sends names that state machine and carries
    the caller's payload, through the request template, as the [body] of the
    execution input.  A call to any other path or with any other verb reaches
    no method, so starts nothing. *)
Theorem single_inbound_trigger (c : Collaborators) :
  let stack := AmazonBedrockPrReviewbotStack.constructor c in
  let api := AmazonBedrockPrReviewbotStack.api stack in
  let arn := stateMachineArn (AmazonBedrockPrReviewbotStack.machine stack) in
  (exists m,
     ReviewBotApi.endpoints api = [("/webhook", m)]
     /\ httpMethod m = "POST"
     /\ integrationType (integration m) = AWS
     /\ uri (integration m)
        = "arn:aws:apigateway:" ++ region c ++ ":states:action/StartExecution"
     /\ policy (credentialsRole (integration m))
        = [ {| allow := true;
               actions := ["states:StartExecution"];
               resources := [arn] |} ]
     /\ forall path verb,
          ApiGateway.route api path verb
          = if String.eqb "/webhook" path && String.eqb "POST" verb
            then Some m else None)
  /\ (forall path verb payload,
        ApiGateway.integrationRequest escapeJavaScript parseJson api path verb payload
        = if String.eqb "/webhook" path && String.eqb "POST" verb
          then Some [ ("input",
                        wrapBody (escapeJavaScript (Java.replace "'" EmptyString payload)));
                      ("stateMachineArn", arn) ]
          else None).
Proof.
  cbv zeta. split.
  - eexists. split; [apply webhook_endpoints|].
    repeat (split; [reflexivity|]). intros. apply webhook_route.
  - intros path verb payload.
    destruct (String.eqb "/webhook" path && String.eqb "POST" verb) eqn:H.
    + apply andb_true_iff in H as [Hp Hv].
      apply String.eqb_eq in Hp, Hv. subst path verb.
      rewrite replace_apostrophe. apply webhook_request.
    + unfold ApiGateway.integrationRequest.
      cbn [AmazonBedrockPrReviewbotStack.api AmazonBedrockPrReviewbotStack.constructor].
      now rewrite webhook_route, H.
Qed.

(** C3. The [input] of the execution started for a payload is the payload
    without its apostrophes, escaped by [escapeJavaScript] and wrapped as the
    [body] member.  The text escaped never holds an apostrophe.  A payload
    that holds one is therefore not what the execution receives: the input
    differs from it, and the payload without its apostrophes, a different
    payload, starts an execution with the same input.  A payload without
    apostrophes comes through whole, escaped.  (The escaping is assumed not
    to produce an apostrophe out of text that has none.) *)
Theorem execution_input_drops_apostrophes
    (Hesc : forall s, contains apostrophe s = false ->
                      contains apostrophe (escapeJavaScript s) = false)
    (region : string) (props : ReviewBotApiProps) (payload : string) :
  let input :=
    ApiGateway.executionInput escapeJavaScript parseJson
      (ReviewBotApi.constructor region props) "/webhook" "POST" in
  input payload
  = Some (wrapBody (escapeJavaScript (Java.replace "'" EmptyString payload)))
  /\ Java.replace "'" EmptyString payload = without apostrophe payload
  /\ contains apostrophe (without apostrophe payload) = false
  /\ (contains apostrophe payload = true ->
      input payload <> Some payload
      /\ without apostrophe payload <> payload
      /\ input (without apostrophe payload) = input payload)
  /\ (contains apostrophe payload = false ->
      input payload = Some (wrapBody (escapeJavaScript payload))).
Proof.
  cbv zeta.
  split; [rewrite replace_apostrophe; apply webhook_input|].
  split; [apply replace_apostrophe|].
  split; [apply contains_without|].
  split.
  - intros Hq. split; [|split].
    + rewrite webhook_input. intros [= E].
      rewrite <- E, wrapBody_apostrophe, Hesc in Hq; [discriminate|].
      apply contains_without.
    + now apply without_present.
    + rewrite !webhook_input.
      now rewrite (without_absent _ (without apostrophe payload))
        by apply contains_without.
  - intros Hq. rewrite webhook_input. now rewrite without_absent.
Qed.

(** The 200 response of the webhook: the two fields read off the reply of
    StartExecution, when the reply holds both. *)
Lemma webhook_response (region : string) (props : ReviewBotApiProps) (reply : string) :
  ApiGateway.methodResponse escapeJavaScript parseJson
    (ReviewBotApi.constructor region props) "/webhook" "POST" "200" reply
  = match parseJson reply "executionArn", parseJson reply "startDate" with
    | Some arn, Some date => Some [("executionArn", arn); ("startDate", date)]
    | _, _ => None
    end.
Proof.
  unfold ApiGateway.methodResponse.
  rewrite webhook_route. cbn.
  destruct (parseJson reply "executionArn") as [arn|]; [|reflexivity].
  destruct (parseJson reply "startDate") as [date|]; [|reflexivity].
  cbn. now rewrite !append_empty_r.
Qed.
End Webhook.

Lemma execution_input_drops_apostrophes_witness :
  let input :=
    ApiGateway.executionInput escapeText sampleReply
      (ReviewBotApi.constructor "eu-west-1"
         {| stateMachine := {| stateMachineArn := "arn:sm" |} |})
      "/webhook" "POST" in
  input "don't" = Some (wrapBody "dont")
  /\ input "don't" <> Some "don't"
  /\ input "dont" = input "don't".
Proof.
  destruct (execution_input_drops_apostrophes escapeText sampleReply
              escapeText_apostrophe "eu-west-1"
              {| stateMachine := {| stateMachineArn := "arn:sm" |} |} "don't")
    as (Hin & _ & _ & Hq & _).
  destruct (Hq eq_refl) as (Hne & _ & Hsame).
  split; [exact Hin|]. split; [exact Hne|exact Hsame].
Defined.

(** ** The Analyzing stage *)

Section Analyzing.
Import Orchestrator.
Variable analyze : Chunk -> Outcome.
Variable maxInFlight : nat.

Lemma nth_error_parts {A} (l : list A) (n : nat) (a : A) :
  nth_error l n = Some a ->
  l = (firstn n l ++ a :: skipn (S n) l)%list.
Proof.
  revert n. induction l as [|x l IH]; intros [|n]; simpl; try discriminate.
  - now intros [= ->].
  - intros H. f_equal. now apply IH.
Qed.

Ltac count_ids :=
  rewrite ?map_app, ?count_occ_app in *; simpl in *;
  rewrite ?map_app, ?count_occ_app in *; simpl in *;
  repeat match goal with
         | |- context [Nat.eq_dec ?a ?b] => destruct (Nat.eq_dec a b)
         | H : context [Nat.eq_dec ?a ?b] |- _ => destruct (Nat.eq_dec a b)
         end; lia.

Lemma onEvent_bounded (t : Tasks) (ev : Event) :
  List.length (inFlight t) <= maxInFlight ->
  List.length (inFlight (onEvent analyze maxInFlight t ev)) <= maxInFlight.
Proof.
  intros H. destruct ev as [|n|]; cbn [onEvent].
  - destruct (pending t) as [|c rest]; [assumption|].
    destruct (Nat.ltb_spec (List.length (inFlight t)) maxInFlight); [|assumption].
    cbn [inFlight]. rewrite length_app. simpl. lia.
  - destruct (nth_error (inFlight t) n) as [c|] eqn:E; [|assumption].
    cbn [inFlight]. rewrite length_app, length_firstn, length_skipn. lia.
  - simpl. lia.
Qed.

Lemma onEvent_accounted (ids : list nat) (t : Tasks) (ev : Event) :
  accounted ids t -> accounted ids (onEvent analyze maxInFlight t ev).
Proof.
  unfold accounted. rewrite !(Permutation_count_occ Nat.eq_dec).
  intros H x. specialize (H x).
  destruct ev as [|n|]; cbn [onEvent].
  - destruct (pending t) as [|c rest] eqn:Ep; [now rewrite Ep|].
    destruct (Nat.ltb (List.length (inFlight t)) maxInFlight);
      [|now rewrite Ep].
    cbn [pending inFlight results]. count_ids.
  - destruct (nth_error (inFlight t) n) as [c|] eqn:E; [|assumption].
    apply nth_error_parts in E.
    set (before := firstn n (inFlight t)) in *.
    set (behind := skipn (S n) (inFlight t)) in *.
    rewrite E in H. cbn [pending inFlight results]. count_ids.
  - cbn [pending inFlight results]. rewrite ?map_app, ?map_map in *.
    change (fun c => resultOf (timedOut c)) with chunkId.
    count_ids.
Qed.

Lemma after_invariant (ids : list nat) (events : list Event) :
  forall t,
    List.length (inFlight t) <= maxInFlight -> accounted ids t ->
    List.length (inFlight (after analyze maxInFlight events t)) <= maxInFlight
    /\ accounted ids (after analyze maxInFlight events t).
Proof.
  unfold after. induction events as [|ev events IH]; intros t Hb Ha; simpl.
  - now split.
  - apply IH; [now apply onEvent_bounded|now apply onEvent_accounted].
Qed.

Lemma dispatched_invariant (chunks : list Chunk) :
  List.length (inFlight (dispatched chunks)) <= maxInFlight
  /\ accounted (map chunkId chunks) (dispatched chunks).
Proof.
  split; [simpl; lia|].
  unfold accounted. simpl. now rewrite !app_nil_r.
Qed.

Lemma join_results (t : Tasks) (rs : list ChunkResult) :
  join t = Some rs -> pending t = [] /\ inFlight t = [] /\ results t = rs.
Proof.
  unfold join. destruct (pending t), (inFlight t); try discriminate.
  now intros [= <-].
Qed.

Lemma join_after_timeout (events : list Event) (t : Tasks) :
  exists rs, join (after analyze maxInFlight (events ++ [StageTimeout]) t) = Some rs.
Proof.
  unfold after. rewrite fold_left_app. simpl. eexists. reflexivity.
Qed.
End Analyzing.

(** ** Executions *)

Section Executions.
Import Orchestrator.
Variable split : ReviewRequest -> option (list Chunk).
Variable analyze : Chunk -> Outcome.
Variable aggregate : list ChunkResult -> option AggregatedReview.
Variable publish : string -> AggregatedReview -> option string.
Variable maxInFlight : nat.

Lemma advance_id (events : list Event) (e : Execution) :
  executionId (advance split analyze aggregate publish maxInFlight events e)
  = executionId e.
Proof.
  unfold advance.
  destruct (stage e); try reflexivity.
  - now destruct (split (request e)) as [[|c cs]|].
  - destruct (join (tasks e)) as [rs|]; [destruct (aggregate rs)|]; reflexivity.
  - destruct (review e) as [r|]; [destruct (publish _ r)|]; reflexivity.
Qed.

(** No stage is revisited: every transition brings the end nearer. *)
Lemma advance_remaining (events : list Event) (e : Execution) :
  remaining (stage (advance split analyze aggregate publish maxInFlight events e))
  <= pred (remaining (stage e)).
Proof.
  unfold advance.
  destruct (stage e) eqn:S; cbn; try lia.
  - destruct (split (request e)) as [[|c cs]|]; cbn; lia.
  - destruct (join (tasks e)) as [rs|]; [destruct (aggregate rs)|]; cbn; lia.
  - destruct (review e) as [r|]; [destruct (publish _ r)|]; cbn; lia.
  - rewrite S. cbn. lia.
  - rewrite S. cbn. lia.
Qed.

Lemma advance_receipted (events : list Event) (e : Execution) :
  receipted publish e ->
  receipted publish (advance split analyze aggregate publish maxInFlight events e).
Proof.
  unfold receipted, advance.
  destruct (stage e) eqn:S; cbn; try rewrite S; auto.
  - now destruct (split (request e)) as [[|c cs]|].
  - destruct (join (tasks e)) as [rs|]; [destruct (aggregate rs)|]; auto.
  - destruct (review e) as [r|]; [destruct (publish _ r) as [l|] eqn:P|]; cbn; eauto.
Qed.

Lemma advanceTimes_invariant (events : list Event) (n : nat) :
  forall e,
    receipted publish e ->
    let e' := advanceTimes split analyze aggregate publish maxInFlight n events e in
    executionId e' = executionId e
    /\ remaining (stage e') <= remaining (stage e) - n
    /\ receipted publish e'.
Proof.
  induction n as [|n IH]; intros e He; cbn [advanceTimes].
  - cbv zeta. repeat split; [lia|assumption].
  - destruct (IH _ (advance_receipted events e He)) as (Hid & Hrem & Hrec).
    cbv zeta. rewrite Hid, advance_id.
    pose proof (advance_remaining events e).
    repeat split; [lia|assumption].
Qed.

Lemma start_state (id : string) (req : ReviewRequest) (e0 : Execution) :
  start id req = Some e0 ->
  executionId e0 = id /\ stage e0 = Ingested /\ published e0 = None.
Proof.
  unfold start. destruct (repository req), (pullRequest req); try discriminate.
  intros [= <-]. repeat split.
Qed.

(** Six transitions after [start], or more, the execution is over: it has
    succeeded with a published review, or failed. *)
Lemma six_transitions (id : string) (req : ReviewRequest) (events : list Event)
    (e0 : Execution) (n : nat) :
  start id req = Some e0 ->
  6 <= n ->
  executionId (advanceTimes split analyze aggregate publish maxInFlight n events e0) = id
  /\ ((stage (advanceTimes split analyze aggregate publish maxInFlight n events e0)
        = Succeeded
       /\ exists r location,
            publish id r = Some location
            /\ published (advanceTimes split analyze aggregate publish maxInFlight
                            n events e0) = Some location)
      \/ stage (advanceTimes split analyze aggregate publish maxInFlight n events e0)
         = Failed).
Proof.
  intros Hstart Hn. apply start_state in Hstart as (Hid0 & Hst0 & Hpub0).
  assert (Hrec0 : receipted publish e0)
    by (unfold receipted; rewrite Hst0; exact Hpub0).
  destruct (advanceTimes_invariant events n e0 Hrec0) as (Hid & Hrem & Hrec).
  revert Hid Hrem Hrec.
  generalize (advanceTimes split analyze aggregate publish maxInFlight n events e0).
  intros e Hid Hrem Hrec.
  rewrite Hid0 in Hid. rewrite Hst0 in Hrem.
  split; [exact Hid|].
  unfold receipted in Hrec. rewrite Hid in Hrec.
  destruct (stage e); cbn [remaining] in Hrem; try lia.
  - left. split; [reflexivity|exact Hrec].
  - right. reflexivity.
Qed.

Lemma advance_request (events : list Event) (e : Execution) :
  request (advance split analyze aggregate publish maxInFlight events e) = request e.
Proof.
  unfold advance.
  destruct (stage e); try reflexivity.
  - now destruct (split (request e)) as [[|c cs]|].
  - destruct (join (tasks e)) as [rs|]; [destruct (aggregate rs)|]; reflexivity.
  - destruct (review e) as [r|]; [destruct (publish _ r)|]; reflexivity.
Qed.

(** What the Analyzing stage hands on: the join is open, on one result per
    chunk. *)
Lemma analyzing_joins (events : list Event) (chunks : list Chunk) :
  let t := after analyze maxInFlight (events ++ [StageTimeout]) (dispatched chunks) in
  join t = Some (results t)
  /\ Permutation (map resultOf (results t)) (map chunkId chunks).
Proof.
  cbv zeta.
  assert (Hj : join (after analyze maxInFlight (events ++ [StageTimeout])
                       (dispatched chunks))
               = Some (results (after analyze maxInFlight (events ++ [StageTimeout])
                                  (dispatched chunks)))).
  { unfold after. rewrite fold_left_app. reflexivity. }
  split; [exact Hj|].
  destruct (dispatched_invariant maxInFlight chunks) as (Hb & Ha).
  destruct (after_invariant analyze maxInFlight _ (events ++ [StageTimeout]) _ Hb Ha)
    as (_ & Hacc).
  apply join_results in Hj as (Hp & Hf & _).
  unfold accounted in Hacc. now rewrite Hp, Hf in Hacc.
Qed.

(** The Analyzing transition is the fan-out up to the stage timeout, and
    nothing else. *)
Lemma advance_analyzing (events : list Event) (e : Execution) :
  stage e = Analyzing ->
  stage (advance split analyze aggregate publish maxInFlight events e) = Aggregating
  /\ tasks (advance split analyze aggregate publish maxInFlight events e)
     = after analyze maxInFlight (events ++ [StageTimeout]) (tasks e).
Proof.
  intros H. unfold advance. rewrite H. split; reflexivity.
Qed.

(** The Aggregating transition goes through the join: it reaches Publishing
    only with the joined results aggregated, and fails when the join is
    shut. *)
Lemma advance_aggregating (events : list Event) (e : Execution) :
  stage e = Aggregating ->
  (exists rs r,
     join (tasks e) = Some rs
     /\ aggregate rs = Some r
     /\ stage (advance split analyze aggregate publish maxInFlight events e) = Publishing
     /\ review (advance split analyze aggregate publish maxInFlight events e) = Some r
     /\ tasks (advance split analyze aggregate publish maxInFlight events e) = tasks e)
  \/ ((join (tasks e) = None
       \/ exists rs, join (tasks e) = Some rs /\ aggregate rs = None)
      /\ stage (advance split analyze aggregate publish maxInFlight events e) = Failed).
Proof.
  intros H. unfold advance. rewrite H.
  destruct (join (tasks e)) as [rs|] eqn:J.
  - destruct (aggregate rs) as [r|] eqn:A.
    + left. exists rs, r. repeat split; assumption.
    + right. split; [right; now exists rs|reflexivity].
  - right. split; [now left|reflexivity].
Qed.

Lemma advance_joined (events : list Event) (e : Execution) :
  joined split aggregate e ->
  joined split aggregate (advance split analyze aggregate publish maxInFlight events e).
Proof.
  unfold joined, advance.
  destruct (stage e) eqn:S; cbn [stage enter withTasks tasks request review].
  - auto.
  - intros Ht. destruct (split (request e)) as [[|c cs]|] eqn:Sp;
      cbn [stage enter withTasks tasks request review fail].
    + exists []. rewrite Sp, Ht. repeat split. constructor.
    + exists (c :: cs). now split.
    + exact I.
  - intros (chunks & Sp & Ht). exists chunks. rewrite Ht.
    split; [exact Sp|apply analyzing_joins].
  - intros (chunks & Sp & Hj & Hperm). rewrite Hj.
    destruct (aggregate (results (tasks e))) as [r|] eqn:A;
      cbn [stage tasks request review fail]; [|exact I].
    exists chunks, r. repeat split; assumption.
  - intros (chunks & r & Sp & Hj & Hperm & A & Hr). rewrite Hr.
    destruct (publish (executionId e) r);
      cbn [stage tasks request review fail]; [|exact I].
    exists chunks, r. repeat split; assumption.
  - intros (chunks & r & H). exists chunks, r. exact H.
  - rewrite S. auto.
  - rewrite S. auto.
Qed.

Lemma advanceTimes_joined (events : list Event) (n : nat) :
  forall e,
    joined split aggregate e ->
    joined split aggregate
      (advanceTimes split analyze aggregate publish maxInFlight n events e)
    /\ request (advanceTimes split analyze aggregate publish maxInFlight n events e)
       = request e.
Proof.
  induction n as [|n IH]; intros e He; cbn [advanceTimes]; [now split|].
  destruct (IH _ (advance_joined events e He)) as (Hj & Hr).
  split; [exact Hj|]. now rewrite Hr, advance_request.
Qed.

(** In a run from [start], an execution past the Analyzing stage has no
    chunk pending or in flight and one result per chunk of the splitter's
    output; past Aggregating, its review aggregates exactly these results. *)
Lemma run_joined (id : string) (req : ReviewRequest) (events : list Event)
    (e0 : Execution) (n : nat) :
  start id req = Some e0 ->
  joined split aggregate
    (advanceTimes split analyze aggregate publish maxInFlight n events e0)
  /\ request (advanceTimes split analyze aggregate publish maxInFlight n events e0) = req.
Proof.
  intros Hstart.
  assert (H0 : joined split aggregate e0 /\ request e0 = req).
  { revert Hstart. unfold start.
    destruct (repository req), (pullRequest req); try discriminate.
    intros [= <-]. split; reflexivity. }
  destruct H0 as (Hj0 & Hr0).
  destruct (advanceTimes_joined events n e0 Hj0) as (Hj & Hr).
  split; [exact Hj|congruence].
Qed.

(** Outside the Analyzing stage no chunk task changes state. *)
Lemma tasks_outside_analyzing (events : list Event) (e : Execution) :
  stage e <> Analyzing ->
  tasks (advance split analyze aggregate publish maxInFlight events e) = tasks e
  \/ exists chunks,
       tasks (advance split analyze aggregate publish maxInFlight events e)
       = dispatched chunks.
Proof.
  intros H. unfold advance.
  destruct (stage e) eqn:S; try (now left); try congruence.
  - destruct (split (request e)) as [[|c cs]|]; [now left| |now left].
    right. now exists (c :: cs).
  - destruct (join (tasks e)); [destruct (aggregate l)|]; now left.
  - destruct (review e); [destruct (publish _ _)|]; now left.
Qed.
End Executions.

(** C7. An execution that was started is over after six transitions, and
    its completion exposes the executionId it was started under, the status
    Succeeded or Failed, and on Succeeded the location the publisher returned
    for the review.  The 200 response of the webhook holds the executionArn
    and the startDate of the reply of StartExecution, and nothing else. *)
Theorem completion_and_webhook_response
    (split : Orchestrator.ReviewRequest -> option (list Orchestrator.Chunk))
    (analyze : Orchestrator.Chunk -> Orchestrator.Outcome)
    (aggregate : list Orchestrator.ChunkResult -> option Orchestrator.AggregatedReview)
    (publish : string -> Orchestrator.AggregatedReview -> option string)
    (maxInFlight : nat)
    (escapeJavaScript : string -> string)
    (parseJson : string -> string -> option string) :
  (forall id req events e0,
     Orchestrator.start id req = Some e0 ->
     exists c,
       Orchestrator.completion
         (Orchestrator.advanceTimes split analyze aggregate publish maxInFlight
            6 events e0) = Some c
       /\ Orchestrator.completedId c = id
       /\ (Orchestrator.status c = Orchestrator.Succeeded
           \/ Orchestrator.status c = Orchestrator.Failed)
       /\ (Orchestrator.status c = Orchestrator.Succeeded ->
           exists r location,
             publish id r = Some location
             /\ Orchestrator.reviewLocation c = Some location))
  /\ (forall region props reply,
        ApiGateway.methodResponse escapeJavaScript parseJson
          (ReviewBotApi.constructor region props) "/webhook" "POST" "200" reply
        = match parseJson reply "executionArn", parseJson reply "startDate" with
          | Some arn, Some date => Some [("executionArn", arn); ("startDate", date)]
          | _, _ => None
          end).
Proof.
  split; [|intros; apply webhook_response].
  intros id req events e0 Hstart.
  destruct (six_transitions split analyze aggregate publish maxInFlight
              id req events e0 6 Hstart (le_n 6)) as (Hid & Hend).
  revert Hid Hend. unfold Orchestrator.completion.
  generalize (Orchestrator.advanceTimes split analyze aggregate publish maxInFlight
                6 events e0).
  intros e Hid Hend.
  destruct Hend as [(Hs & r & location & Hp & Hl)|Hs]; rewrite Hs;
    cbn [Orchestrator.terminal];
    eexists; (split; [reflexivity|]);
    cbn [Orchestrator.completedId Orchestrator.status Orchestrator.reviewLocation];
    (split; [exact Hid|]).
  - split; [now left|]. intros _. now exists r, location.
  - split; [now right|]. discriminate.
Qed.

Lemma completion_and_webhook_response_witness :
  exists c,
    Orchestrator.completion
      (Orchestrator.advanceTimes sampleSplit sampleAnalyze sampleAggregate
         samplePublish 2 6
         [Orchestrator.Dispatch; Orchestrator.Dispatch;
          Orchestrator.Complete 1; Orchestrator.Complete 0]
         {| Orchestrator.executionId := "exec-1";
            Orchestrator.stage := Orchestrator.Ingested;
            Orchestrator.request := sampleRequest;
            Orchestrator.tasks := Orchestrator.noTasks;
            Orchestrator.review := None;
            Orchestrator.published := None;
            Orchestrator.failure := None |}) = Some c
    /\ Orchestrator.completedId c = "exec-1"
    /\ (Orchestrator.status c = Orchestrator.Succeeded
        \/ Orchestrator.status c = Orchestrator.Failed)
    /\ (Orchestrator.status c = Orchestrator.Succeeded ->
        exists r location,
          samplePublish "exec-1" r = Some location
          /\ Orchestrator.reviewLocation c = Some location).
Proof.
  apply (proj1 (completion_and_webhook_response sampleSplit sampleAnalyze
                  sampleAggregate samplePublish 2 escapeText sampleReply)
               "exec-1" sampleRequest).
  reflexivity.
Defined.

(** C8. In the Analyzing stage, whatever happens and in whatever order, the
    analyses in flight never exceed the configured maximum, and every chunk
    of the splitter's output is pending, in flight or resolved, once.  The
    stage proceeds only through the join, which opens when no chunk is pending
    or in flight and then holds one outcome per chunk; it does open, at the
    latest when the stage timeout elapses.  No other stage dispatches or
    resolves a chunk: outside Analyzing a transition leaves the chunk tasks as
    they are, or registers the splitter's chunks as pending.  The transition
    out of Analyzing is this fan-out up to the stage timeout; the transition
    out of Aggregating reaches Publishing only with the results the join
    yields, aggregated, and fails when the join is shut.  So in every run from
    [start], an execution past Analyzing has no chunk pending or in flight and
    one result per chunk of the splitter's output, and past Aggregating its
    review aggregates exactly these results. *)
Theorem bounded_fan_out_single_join
    (split : Orchestrator.ReviewRequest -> option (list Orchestrator.Chunk))
    (analyze : Orchestrator.Chunk -> Orchestrator.Outcome)
    (aggregate : list Orchestrator.ChunkResult -> option Orchestrator.AggregatedReview)
    (publish : string -> Orchestrator.AggregatedReview -> option string)
    (maxInFlight : nat)
    (chunks : list Orchestrator.Chunk) (events : list Orchestrator.Event) :
  let ids := map Orchestrator.chunkId chunks in
  let t := Orchestrator.after analyze maxInFlight events (Orchestrator.dispatched chunks) in
  List.length (Orchestrator.inFlight t) <= maxInFlight
  /\ Orchestrator.accounted ids t
  /\ (forall rs, Orchestrator.join t = Some rs ->
                 Permutation (map Orchestrator.resultOf rs) ids)
  /\ (exists rs,
        Orchestrator.join
          (Orchestrator.after analyze maxInFlight
             (events ++ [Orchestrator.StageTimeout])%list
             (Orchestrator.dispatched chunks)) = Some rs
        /\ Permutation (map Orchestrator.resultOf rs) ids)
  /\ (forall e,
        Orchestrator.stage e <> Orchestrator.Analyzing ->
        Orchestrator.tasks
          (Orchestrator.advance split analyze aggregate publish maxInFlight events e)
        = Orchestrator.tasks e
        \/ exists cs,
             Orchestrator.tasks
               (Orchestrator.advance split analyze aggregate publish maxInFlight events e)
             = Orchestrator.dispatched cs)
  /\ (forall e,
        Orchestrator.stage e = Orchestrator.Analyzing ->
        Orchestrator.stage
          (Orchestrator.advance split analyze aggregate publish maxInFlight events e)
        = Orchestrator.Aggregating
        /\ Orchestrator.tasks
             (Orchestrator.advance split analyze aggregate publish maxInFlight events e)
           = Orchestrator.after analyze maxInFlight
               (events ++ [Orchestrator.StageTimeout])%list (Orchestrator.tasks e))
  /\ (forall e,
        Orchestrator.stage e = Orchestrator.Aggregating ->
        (exists rs r,
           Orchestrator.join (Orchestrator.tasks e) = Some rs
           /\ aggregate rs = Some r
           /\ Orchestrator.stage
                (Orchestrator.advance split analyze aggregate publish maxInFlight
                   events e) = Orchestrator.Publishing
           /\ Orchestrator.review
                (Orchestrator.advance split analyze aggregate publish maxInFlight
                   events e) = Some r
           /\ Orchestrator.tasks
                (Orchestrator.advance split analyze aggregate publish maxInFlight
                   events e) = Orchestrator.tasks e)
        \/ ((Orchestrator.join (Orchestrator.tasks e) = None
             \/ exists rs, Orchestrator.join (Orchestrator.tasks e) = Some rs
                           /\ aggregate rs = None)
            /\ Orchestrator.stage
                 (Orchestrator.advance split analyze aggregate publish maxInFlight
                    events e) = Orchestrator.Failed))
  /\ (forall id req e0 n,
        Orchestrator.start id req = Some e0 ->
        let e :=
          Orchestrator.advanceTimes split analyze aggregate publish maxInFlight
            n events e0 in
        Orchestrator.stage e = Orchestrator.Aggregating
        \/ Orchestrator.stage e = Orchestrator.Publishing
        \/ Orchestrator.stage e = Orchestrator.Notifying
        \/ Orchestrator.stage e = Orchestrator.Succeeded ->
        exists cs,
          split req = Some cs
          /\ Orchestrator.pending (Orchestrator.tasks e) = []
          /\ Orchestrator.inFlight (Orchestrator.tasks e) = []
          /\ Permutation
               (map Orchestrator.resultOf (Orchestrator.results (Orchestrator.tasks e)))
               (map Orchestrator.chunkId cs)
          /\ (Orchestrator.stage e <> Orchestrator.Aggregating ->
              exists r,
                aggregate (Orchestrator.results (Orchestrator.tasks e)) = Some r
                /\ Orchestrator.review e = Some r)).
Proof.
  assert (Hjoin : forall evs rs,
            Orchestrator.join
              (Orchestrator.after analyze maxInFlight evs
                 (Orchestrator.dispatched chunks)) = Some rs ->
            Permutation (map Orchestrator.resultOf rs)
                        (map Orchestrator.chunkId chunks)).
  { intros evs rs Hj.
    destruct (dispatched_invariant maxInFlight chunks) as (Hb & Ha).
    destruct (after_invariant analyze maxInFlight _ evs _ Hb Ha) as (_ & Hacc).
    apply join_results in Hj as (Hp & Hf & <-).
    unfold Orchestrator.accounted in Hacc. now rewrite Hp, Hf in Hacc. }
  cbv zeta.
  destruct (dispatched_invariant maxInFlight chunks) as (Hb & Ha).
  destruct (after_invariant analyze maxInFlight _ events _ Hb Ha) as (Hbound & Hacc).
  split; [exact Hbound|]. split; [exact Hacc|]. split; [apply Hjoin|].
  split.
  - destruct (join_after_timeout analyze maxInFlight events
                (Orchestrator.dispatched chunks)) as (rs & Hrs).
    exists rs. split; [exact Hrs|]. now apply Hjoin in Hrs.
  - split; [intros e; apply tasks_outside_analyzing|].
    split; [intros e; apply advance_analyzing|].
    split; [intros e; apply advance_aggregating|].
    intros id req e0 n Hstart.
    destruct (run_joined split analyze aggregate publish maxInFlight
                id req events e0 n Hstart) as (Hj & Hreq).
    cbv zeta. revert Hj Hreq.
    generalize (Orchestrator.advanceTimes split analyze aggregate publish
                  maxInFlight n events e0).
    intros e Hj Hreq Hstage. unfold Orchestrator.joined in Hj.
    rewrite Hreq in Hj.
    destruct Hstage as [S|[S|[S|S]]]; rewrite S in Hj.
    + destruct Hj as (cs & Sp & J & P). exists cs.
      apply join_results in J as (Hp & Hf & _).
      repeat split; try assumption. intros Hne. now contradiction Hne.
    + destruct Hj as (cs & r & Sp & J & P & A & R). exists cs.
      apply join_results in J as (Hp & Hf & _).
      repeat split; try assumption. intros _. now exists r.
    + destruct Hj as (cs & r & Sp & J & P & A & R). exists cs.
      apply join_results in J as (Hp & Hf & _).
      repeat split; try assumption. intros _. now exists r.
    + destruct Hj as (cs & r & Sp & J & P & A & R). exists cs.
      apply join_results in J as (Hp & Hf & _).
      repeat split; try assumption. intros _. now exists r.
Qed.

Lemma bounded_fan_out_single_join_witness :
  let chunks :=
    [ {| Orchestrator.chunkId := 0; Orchestrator.content := "x" |};
      {| Orchestrator.chunkId := 1; Orchestrator.content := "y" |};
      {| Orchestrator.chunkId := 2; Orchestrator.content := "z" |} ] in
  let events :=
    [ Orchestrator.Dispatch; Orchestrator.Dispatch; Orchestrator.Dispatch;
      Orchestrator.Complete 1; Orchestrator.Dispatch;
      Orchestrator.Complete 1; Orchestrator.Complete 0 ] in
  Orchestrator.join
    (Orchestrator.after sampleAnalyze 2 events (Orchestrator.dispatched chunks))
  = Some [ {| Orchestrator.resultOf := 1; Orchestrator.outcome := Orchestrator.ok [] |};
           {| Orchestrator.resultOf := 2; Orchestrator.outcome := Orchestrator.ok [] |};
           {| Orchestrator.resultOf := 0; Orchestrator.outcome := Orchestrator.ok [] |} ]
  /\ Permutation [1; 2; 0] [0; 1; 2].
Proof.
  cbv zeta. split; [reflexivity|].
  apply (proj1 (proj2 (proj2
           (bounded_fan_out_single_join sampleSplit sampleAnalyze sampleAggregate
              samplePublish 2
              [ {| Orchestrator.chunkId := 0; Orchestrator.content := "x" |};
                {| Orchestrator.chunkId := 1; Orchestrator.content := "y" |};
                {| Orchestrator.chunkId := 2; Orchestrator.content := "z" |} ]
              [ Orchestrator.Dispatch; Orchestrator.Dispatch; Orchestrator.Dispatch;
                Orchestrator.Complete 1; Orchestrator.Dispatch;
                Orchestrator.Complete 1; Orchestrator.Complete 0 ])))
         [ {| Orchestrator.resultOf := 1; Orchestrator.outcome := Orchestrator.ok [] |};
           {| Orchestrator.resultOf := 2; Orchestrator.outcome := Orchestrator.ok [] |};
           {| Orchestrator.resultOf := 0; Orchestrator.outcome := Orchestrator.ok [] |} ]).
  reflexivity.
Defined.

(** ** The sample deployment, run *)

Example sample_worker_names :
  map (fun e => Fn.functionName (snd e)) (AmazonBedrockPrReviewbotStack.workers sampleCollaborators)
  = [ Some "PRR-InitialProcessingFunction";
      Some "PRR-SplitPRIntoChunksFunction";
      Some "PRR-ProcessChunkFunction";
      Some "PRR-AggregateResultsFunction";
      Some "PRR-PostPRCommentFunction";
      Some "PRR-SendSlackNotificationFunction";
      Some "PRR-HandleErrorFunction" ].
Proof. reflexivity. Qed.

Example sample_timeouts :
  map (fun e => option_map Duration.toSeconds (Fn.timeout (snd e)))
      (ReviewBotLambda.functions sampleProps)
  = [Some 30; Some 300; Some 600; Some 300; Some 120; Some 60; Some 60].
Proof. reflexivity. Qed.

Example sample_dashboard_titles :
  option_map (fun d => map (map title) (rows d))
             (ReviewBotLambda.dashboard (ReviewBotLambda.constructor sampleProps))
  = Some [ ["initialProcessing Metrics"; "splitPr Metrics"];
           ["processChunk Metrics"; "aggregateResults Metrics"];
           ["postPrComment Metrics"; "sendSlackNotification Metrics"];
           ["handleError Metrics"] ].
Proof. reflexivity. Qed.

Example sample_webhook_call :
  ApiGateway.integrationRequest escapeText sampleReply
    (AmazonBedrockPrReviewbotStack.api
       (AmazonBedrockPrReviewbotStack.constructor sampleCollaborators))
    "/webhook" "POST" "{'pr': 7, 'path': 'a/b'}"
  = Some [ ("input", wrapBody ("{pr: 7, path: a" ++ bs ++ "/b}"));
           ("stateMachineArn",
            "arn:aws:states:eu-west-1:111122223333:stateMachine:PRReview") ].
Proof. reflexivity. Qed.

Example sample_webhook_other_verb :
  ApiGateway.integrationRequest escapeText sampleReply
    (AmazonBedrockPrReviewbotStack.api
       (AmazonBedrockPrReviewbotStack.constructor sampleCollaborators))
    "/webhook" "GET" "{}"
  = None.
Proof. reflexivity. Qed.

Example sample_webhook_reply :
  ApiGateway.methodResponse escapeText sampleReply
    (AmazonBedrockPrReviewbotStack.api
       (AmazonBedrockPrReviewbotStack.constructor sampleCollaborators))
    "/webhook" "POST" "200" "e1"
  = Some [("executionArn", "arn:aws:states:execution:e1"); ("startDate", "1.7E9")].
Proof. reflexivity. Qed.

Example sample_replace_general :
  Java.replace "ab" "-" "xababyab" = "x--y-"
  /\ Java.replace "aa" "b" "aaa" = "ba"
  /\ Java.replace EmptyString "-" "ab" = "-a-b-".
Proof. repeat split. Qed.

Example sample_execution_succeeds :
  option_map
    (fun e =>
       Orchestrator.completion
         (Orchestrator.advanceTimes sampleSplit sampleAnalyze sampleAggregate
            samplePublish 1 6 [Orchestrator.Dispatch; Orchestrator.Complete 0] e))
    (Orchestrator.start "exec-1" sampleRequest)
  = Some (Some {| Orchestrator.completedId := "exec-1";
                  Orchestrator.status := Orchestrator.Succeeded;
                  Orchestrator.reviewLocation := Some "review of exec-1" |}).
Proof. vm_compute. reflexivity. Qed.

Example sample_execution_fails_to_publish :
  option_map
    (fun e =>
       Orchestrator.completion
         (Orchestrator.advanceTimes sampleSplit sampleAnalyze sampleAggregate
            (fun _ _ => None) 1 6 [] e))
    (Orchestrator.start "exec-2" sampleRequest)
  = Some (Some {| Orchestrator.completedId := "exec-2";
                  Orchestrator.status := Orchestrator.Failed;
                  Orchestrator.reviewLocation := None |}).
Proof. vm_compute. reflexivity. Qed.

Example sample_semaphore_holds_third_dispatch :
  let t :=
    Orchestrator.after sampleAnalyze 2
      [Orchestrator.Dispatch; Orchestrator.Dispatch; Orchestrator.Dispatch]
      (Orchestrator.dispatched
         [ {| Orchestrator.chunkId := 0; Orchestrator.content := "x" |};
           {| Orchestrator.chunkId := 1; Orchestrator.content := "y" |};
           {| Orchestrator.chunkId := 2; Orchestrator.content := "z" |} ]) in
  map Orchestrator.chunkId (Orchestrator.inFlight t) = [0; 1]
  /\ map Orchestrator.chunkId (Orchestrator.pending t) = [2]
  /\ Orchestrator.join t = None.
Proof. repeat split. Qed.

(** * Further properties of the constructs *)

(** ** Property writes *)

Lemma get_set_same {V} (k : string) (v : V) (o : JsObject.t V) :
  JsObject.get k (JsObject.set k v o) = Some v.
Proof.
  induction o as [|[k' v'] o IH]; simpl.
  - now rewrite String.eqb_refl.
  - destruct (String.eqb k k') eqn:E; simpl; rewrite E; [reflexivity|exact IH].
Qed.

Lemma get_set_other {V} (k k' : string) (v : V) (o : JsObject.t V) :
  k' <> k -> JsObject.get k' (JsObject.set k v o) = JsObject.get k' o.
Proof.
  intros Hne. induction o as [|[k0 v0] o IH]; simpl.
  - now apply String.eqb_neq in Hne as ->.
  - destruct (String.eqb_spec k k0) as [->|Hk]; simpl.
    + now apply String.eqb_neq in Hne as ->.
    + now rewrite IH.
Qed.

Lemma get_None_keys {V} (k : string) (o : JsObject.t V) :
  JsObject.get k o = None <-> ~ In k (JsObject.keys o).
Proof.
  induction o as [|[k' v'] o IH]; simpl; [tauto|].
  destruct (String.eqb_spec k k') as [->|Hk].
  - split; [discriminate|]. intros H. exfalso. apply H. now left.
  - rewrite IH. split; [intros H [E|Hin]; [congruence|tauto]|tauto].
Qed.

Lemma keys_set {V} (k : string) (v : V) (o : JsObject.t V) :
  JsObject.keys (JsObject.set k v o)
  = match JsObject.get k o with
    | Some _ => JsObject.keys o
    | None => (JsObject.keys o ++ [k])%list
    end.
Proof.
  induction o as [|[k' v'] o IH]; simpl; [reflexivity|].
  destruct (String.eqb k k'); simpl; [reflexivity|].
  rewrite IH. now destruct (JsObject.get k o).
Qed.

Lemma NoDup_keys_set {V} (k : string) (v : V) (o : JsObject.t V) :
  NoDup (JsObject.keys o) -> NoDup (JsObject.keys (JsObject.set k v o)).
Proof.
  intros H. rewrite keys_set.
  destruct (JsObject.get k o) eqn:E; [assumption|].
  apply get_None_keys in E.
  apply NoDup_app; [assumption|repeat constructor; simpl; tauto|].
  intros x Hx [<-|[]]. contradiction.
Qed.

Lemma NoDup_keys_writes {V} (ps : list (string * V)) :
  forall o : JsObject.t V,
    NoDup (JsObject.keys o) ->
    NoDup (JsObject.keys (fold_left (fun o p => JsObject.set (fst p) (snd p) o) ps o)).
Proof.
  induction ps as [|p ps IH]; intros o H; simpl; [assumption|].
  apply IH. now apply NoDup_keys_set.
Qed.

(** After a run of writes, a key holds what the writes alone would have
    left under it, and else what it held before. *)
Lemma get_writes {V} (k : string) (ps : list (string * V)) :
  forall o : JsObject.t V,
    JsObject.get k (fold_left (fun o p => JsObject.set (fst p) (snd p) o) ps o)
    = match JsObject.get k (JsObject.literal ps) with
      | Some v => Some v
      | None => JsObject.get k o
      end.
Proof.
  unfold JsObject.literal.
  induction ps as [|[k' v'] ps IH]; intros o; cbn [fold_left fst snd];
    [reflexivity|].
  rewrite (IH (JsObject.set k' v' o)), (IH (JsObject.set k' v' JsObject.empty)).
  destruct (JsObject.get k (fold_left _ ps JsObject.empty)); [reflexivity|].
  destruct (String.eqb_spec k k') as [->|Hk].
  - now rewrite !get_set_same.
  - now rewrite !get_set_other by assumption.
Qed.

Lemma get_literal_app {V} (k : string) (ps qs : list (string * V)) :
  JsObject.get k (JsObject.literal (ps ++ qs))
  = match JsObject.get k (JsObject.literal qs) with
    | Some v => Some v
    | None => JsObject.get k (JsObject.literal ps)
    end.
Proof.
  unfold JsObject.literal at 1. rewrite fold_left_app. apply get_writes.
Qed.

Lemma literal_entries {V} (o : JsObject.t V) :
  NoDup (JsObject.keys o) -> JsObject.literal (JsObject.entries o) = o.
Proof.
  unfold JsObject.literal, JsObject.entries.
  enough (G : forall seen rest : JsObject.t V,
             NoDup (JsObject.keys (seen ++ rest)%list) ->
             fold_left (fun o p => JsObject.set (fst p) (snd p) o) rest seen
             = (seen ++ rest)%list)
    by apply (G [] o).
  intros seen rest. revert seen.
  induction rest as [|[k v] rest IH]; intros seen H; simpl.
  - now rewrite app_nil_r.
  - assert (Hset : JsObject.set k v seen = (seen ++ [(k, v)])%list).
    { unfold JsObject.keys in H. rewrite map_app in H. simpl in H.
      apply NoDup_remove_2 in H.
      assert (Hk : ~ In k (map fst seen)) by (intros Hin; apply H, in_or_app; now left).
      clear -Hk. induction seen as [|[k0 v0] seen IHd]; simpl; [reflexivity|].
      destruct (String.eqb_spec k k0) as [->|_].
      - exfalso. apply Hk. now left.
      - rewrite IHd; [reflexivity|]. intros Hin. apply Hk. now right. }
    rewrite Hset, IH; rewrite <- app_assoc; [reflexivity|exact H].
Qed.

(** X2. For keys that are ordinary (no array index, not [__proto__]), on
    an object whose keys are ordinary: an assignment [o[k] = v] makes [v] the
    value under [k] and leaves every other key with its value; a key that was
    there keeps its place in the enumeration order and a new key goes last;
    keys never come to occur twice. *)
Theorem assignment_laws {V} (o : JsObject.t V) (k : string) (v : V)
    (Hk : ordinaryKey k = true)
    (Ho : Forall (fun k' => ordinaryKey k' = true) (JsObject.keys o)) :
  JsObject.get k (JsObject.set k v o) = Some v
  /\ (forall k', k' <> k -> JsObject.get k' (JsObject.set k v o) = JsObject.get k' o)
  /\ JsObject.keys (JsObject.set k v o)
     = match JsObject.get k o with
       | Some _ => JsObject.keys o
       | None => (JsObject.keys o ++ [k])%list
       end
  /\ Forall (fun k' => ordinaryKey k' = true) (JsObject.keys (JsObject.set k v o))
  /\ (NoDup (JsObject.keys o) -> NoDup (JsObject.keys (JsObject.set k v o))).
Proof.
  split; [apply get_set_same|].
  split; [intros; now apply get_set_other|].
  split; [apply keys_set|].
  split; [|apply NoDup_keys_set].
  rewrite keys_set. destruct (JsObject.get k o); [assumption|].
  apply Forall_app. split; [assumption|]. now repeat constructor.
Qed.

Lemma assignment_laws_witness :
  let o := ReviewBotLambda.functions sampleProps in
  let f := ReviewBotLambda.handleError sampleProps in
  JsObject.get "handleError" (JsObject.set "splitPr" f o)
  = JsObject.get "handleError" o
  /\ NoDup (JsObject.keys (JsObject.set "splitPr" f o)).
Proof.
  destruct (assignment_laws (ReviewBotLambda.functions sampleProps) "splitPr"
              (ReviewBotLambda.handleError sampleProps))
    as (_ & Hother & _ & _ & Hnodup).
  - reflexivity.
  - repeat constructor.
  - split.
    + apply Hother. discriminate.
    + apply Hnodup. repeat constructor; simpl; intuition discriminate.
Defined.

(** X1. In a worker definition the properties written after the spread of
    the common ones win: a property of the worker is the one its own list
    gives it, the last if it is written twice, and a common property only
    where the own list is silent. *)
Theorem own_properties_shadow_common (props : ReviewBotLambdaProps) (id : string)
    (own : list (string * PropValue)) (k : string) :
  Fn.prop k (ReviewBotLambda.newFunction props id own)
  = match JsObject.get k (JsObject.literal own) with
    | Some v => Some v
    | None => JsObject.get k (ReviewBotLambda.commonProps props)
    end.
Proof.
  unfold Fn.prop, ReviewBotLambda.newFunction. cbn [fnProps].
  rewrite get_literal_app.
  destruct (JsObject.get k (JsObject.literal own)); [reflexivity|].
  rewrite literal_entries; [reflexivity|].
  repeat constructor; simpl; intuition discriminate.
Qed.

(** ** The dashboard grid *)

Lemma pairs_length {A} (l : list A) :
  List.length (pairs l) = Nat.div2 (S (List.length l)).
Proof.
  induction l as [| a | a b l IH] using pairs_ind2; [reflexivity..|].
  cbn [pairs List.length]. rewrite IH. reflexivity.
Qed.

Lemma pairs_rows_from {A} (P : A -> Prop) (l : list A) :
  Forall P l -> Forall (Forall P) (pairs l).
Proof.
  induction l as [| a | a b l IH] using pairs_ind2; intros H.
  - constructor.
  - repeat constructor. now inversion H.
  - inversion H as [|? ? Ha H']. inversion H' as [|? ? Hb H'']. subst.
    cbn [pairs]. constructor; [repeat constructor; assumption|auto].
Qed.

Lemma rowWidth_twelves (r : list GraphWidget) :
  Forall (fun w => width w = 12) r -> rowWidth r = 12 * List.length r.
Proof.
  unfold rowWidth. induction r as [|w r IH]; intros H; [reflexivity|].
  inversion H as [|? ? Hw Hr]. subst. cbn [map List.length].
  change (list_sum (width w :: map width r))
    with (width w + list_sum (map width r)).
  rewrite Hw, IH by assumption. lia.
Qed.

Lemma dashboard_result (fs : JsObject.t LambdaFunction) :
  ReviewBotLambda.createCloudWatchDashboard fs
  = Some {| dashboardName := "PR-ReviewBot-Metrics";
            rows := pairs (map ReviewBotLambda.graphWidget (JsObject.entries fs)) |}.
Proof.
  unfold ReviewBotLambda.createCloudWatchDashboard.
  rewrite addRows_pairs by lia. cbn [rows skipn app dashboardName].
  now rewrite widgetsOf_map.
Qed.

(** X3. For every [functions] map of n entries the dashboard has
    ceil(n/2) rows; every widget is 12 units wide, so a row of two fills the
    24 units of the grid and no row is wider. *)
Theorem dashboard_grid (fs : JsObject.t LambdaFunction) :
  exists d,
    ReviewBotLambda.createCloudWatchDashboard fs = Some d
    /\ dashboardName d = "PR-ReviewBot-Metrics"
    /\ List.length (rows d) = Nat.div2 (S (List.length (JsObject.entries fs)))
    /\ Forall (fun r => rowWidth r = 12 * List.length r /\ rowWidth r <= 24) (rows d).
Proof.
  eexists. split; [apply dashboard_result|]. cbn [dashboardName rows].
  split; [reflexivity|].
  split; [now rewrite pairs_length, length_map|].
  set (ws := map ReviewBotLambda.graphWidget (JsObject.entries fs)).
  assert (Hw : Forall (fun w => width w = 12) ws).
  { apply Forall_forall. intros w Hin. apply in_map_iff in Hin as ([k f] & <- & _).
    reflexivity. }
  pose proof (pairs_rows_from _ ws Hw) as Hrows.
  pose proof (pairs_row_sizes ws) as Hsizes.
  apply Forall_forall. intros r Hr.
  rewrite Forall_forall in Hrows, Hsizes.
  rewrite (rowWidth_twelves r (Hrows r Hr)).
  specialize (Hsizes r Hr). lia.
Qed.

Lemma string_length_append (a b : string) :
  String.length (a ++ b) = String.length a + String.length b.
Proof. induction a as [|c a IH]; simpl; congruence. Qed.

Lemma append_same_suffix (s a b : string) : a ++ s = b ++ s -> a = b.
Proof.
  revert b. induction a as [|c a IH]; intros [|c' b] H; simpl in H.
  - reflexivity.
  - apply (f_equal String.length) in H. simpl in H.
    rewrite string_length_append in H. lia.
  - apply (f_equal String.length) in H. simpl in H.
    rewrite string_length_append in H. lia.
  - injection H as -> H. f_equal. now apply IH.
Qed.

Lemma NoDup_map_injective {A B} (f : A -> B) (l : list A) :
  (forall x y, f x = f y -> x = y) -> NoDup l -> NoDup (map f l).
Proof.
  intros Hf. induction 1 as [|x l Hx Hl IH]; simpl; constructor; [|assumption].
  intros Hin. apply in_map_iff in Hin as (y & E & Hy).
  apply Hf in E. now subst.
Qed.

(** X4. The widgets follow the entries one to one: the widget of an entry
    is titled by its key and plots invocations, errors, throttles and duration
    of the function of that entry, of no other.  When no key occurs twice, no
    two widgets of the dashboard share a title. *)
Theorem dashboard_widgets_identify_functions (fs : JsObject.t LambdaFunction) :
  Forall2 (fun e w =>
             title w = fst e ++ " Metrics"
             /\ map metricKind (left w) = [Invocations; Errors; Throttles; DurationMs]
             /\ Forall (fun m => metricOf m = constructId (snd e)) (left w))
          (JsObject.entries fs) (ReviewBotLambda.widgetsOf fs)
  /\ (NoDup (JsObject.keys fs) ->
      forall d, ReviewBotLambda.createCloudWatchDashboard fs = Some d ->
                NoDup (map title (concat (rows d)))).
Proof.
  split.
  - rewrite widgetsOf_map. unfold JsObject.entries.
    induction fs as [|[k f] fs IH]; simpl; constructor; [|exact IH].
    repeat split. repeat constructor.
  - intros Hkeys d Hd. rewrite dashboard_result in Hd. injection Hd as <-.
    cbn [rows]. rewrite concat_pairs. unfold JsObject.entries.
    replace (map title (map ReviewBotLambda.graphWidget fs))
      with (map (fun k => k ++ " Metrics") (JsObject.keys fs)).
    + apply NoDup_map_injective; [|assumption].
      intros x y. apply append_same_suffix.
    + unfold JsObject.keys. rewrite !map_map. apply map_ext. now intros [k f].
Qed.

Lemma dashboard_widgets_identify_functions_witness :
  exists d,
    ReviewBotLambda.createCloudWatchDashboard (ReviewBotLambda.functions sampleProps)
    = Some d
    /\ NoDup (map title (concat (rows d))).
Proof.
  eexists. split; [reflexivity|].
  apply (proj2 (dashboard_widgets_identify_functions
                  (ReviewBotLambda.functions sampleProps))).
  - repeat constructor; simpl; intuition discriminate.
  - reflexivity.
Defined.

(** ** Payloads that differ in apostrophes *)

Lemma without_app (c : ascii) (a b : string) :
  without c (a ++ b) = without c a ++ without c b.
Proof.
  induction a as [|x a IH]; simpl; [reflexivity|].
  destruct (Ascii.eqb x c); simpl; now rewrite IH.
Qed.

Lemma wrapBody_injective (a b : string) : wrapBody a = wrapBody b -> a = b.
Proof.
  unfold wrapBody. cbn. intros H. injection H as H.
  now apply append_same_suffix in H.
Qed.

(** X5. An apostrophe anywhere in a payload leaves no trace: the payload
    with it and the payload without it start executions with the same input,
    whatever the escaping does. *)
Theorem apostrophe_leaves_no_trace
    (escapeJavaScript : string -> string)
    (parseJson : string -> string -> option string)
    (region : string) (props : ReviewBotApiProps) (before behind : string) :
  ApiGateway.executionInput escapeJavaScript parseJson
    (ReviewBotApi.constructor region props) "/webhook" "POST"
    (before ++ "'" ++ behind)
  = ApiGateway.executionInput escapeJavaScript parseJson
      (ReviewBotApi.constructor region props) "/webhook" "POST"
      (before ++ behind).
Proof.
  rewrite !webhook_input, !without_app. reflexivity.
Qed.

(** X6. When the escaping is injective, two payloads start executions
    with the same input exactly when they are equal once their apostrophes are
    dropped: the input tells the payload apart up to apostrophes, and no
    further. *)
Theorem input_determines_payload_up_to_apostrophes
    (escapeJavaScript : string -> string)
    (parseJson : string -> string -> option string)
    (Hinj : forall a b, escapeJavaScript a = escapeJavaScript b -> a = b)
    (region : string) (props : ReviewBotApiProps) (p q : string) :
  ApiGateway.executionInput escapeJavaScript parseJson
    (ReviewBotApi.constructor region props) "/webhook" "POST" p
  = ApiGateway.executionInput escapeJavaScript parseJson
      (ReviewBotApi.constructor region props) "/webhook" "POST" q
  <-> without apostrophe p = without apostrophe q.
Proof.
  rewrite !webhook_input. split.
  - intros H.
    assert (Hw : wrapBody (escapeJavaScript (without apostrophe p))
                 = wrapBody (escapeJavaScript (without apostrophe q)))
      by congruence.
    now apply wrapBody_injective, Hinj in Hw.
  - now intros ->.
Qed.

Lemma input_determines_payload_up_to_apostrophes_witness :
  ApiGateway.executionInput (fun s => s) sampleReply
    (ReviewBotApi.constructor "eu-west-1"
       {| stateMachine := {| stateMachineArn := "arn:sm" |} |})
    "/webhook" "POST" "it's"
  = ApiGateway.executionInput (fun s => s) sampleReply
      (ReviewBotApi.constructor "eu-west-1"
         {| stateMachine := {| stateMachineArn := "arn:sm" |} |})
      "/webhook" "POST" "its"
  <-> without apostrophe "it's" = without apostrophe "its".
Proof.
  apply (input_determines_payload_up_to_apostrophes (fun s => s) sampleReply).
  intros a b H. exact H.
Defined.

(** ** The worker definitions, side by side *)

(** X7. Every worker definition follows one pattern: the handler is
    [index.lambda_handler], the code is the directory of [src/lambda] named by
    the worker's key in kebab-case, the function name is of the form
    PRR-...Function, and both the timeout and the memory size are set, the
    timeout between 30 seconds and 10 minutes, the memory between 256 and
    1024 MB. *)
Theorem worker_definitions_uniform (props : ReviewBotLambdaProps)
    (key : string) (f : LambdaFunction)
    (Hf : JsObject.get key (ReviewBotLambda.functions props) = Some f) :
  fnHandler f = Some "index.lambda_handler"
  /\ fnCode f = Some ("src/lambda/" ++ kebab key)
  /\ (exists stem, Fn.functionName f = Some ("PRR-" ++ stem ++ "Function"))
  /\ (exists d, Fn.timeout f = Some d
                /\ 30 <= Duration.toSeconds d <= 600)
  /\ (exists m, Fn.memorySize f = Some m /\ 256 <= m <= 1024).
Proof.
  each_worker Hf;
    (split; [reflexivity|]); (split; [reflexivity|]);
    (split;
       [first [ exists "InitialProcessing"; reflexivity
              | exists "SplitPRIntoChunks"; reflexivity
              | exists "ProcessChunk"; reflexivity
              | exists "AggregateResults"; reflexivity
              | exists "PostPRComment"; reflexivity
              | exists "SendSlackNotification"; reflexivity
              | exists "HandleError"; reflexivity ]|]);
    (split; eexists; (split; [reflexivity|cbn; lia])).
Qed.

Lemma worker_definitions_uniform_witness :
  fnCode (ReviewBotLambda.sendSlackNotification sampleProps)
  = Some "src/lambda/send-slack-notification"
  /\ exists d, Fn.timeout (ReviewBotLambda.sendSlackNotification sampleProps) = Some d
               /\ 30 <= Duration.toSeconds d <= 600.
Proof.
  destruct (worker_definitions_uniform sampleProps "sendSlackNotification"
              (ReviewBotLambda.sendSlackNotification sampleProps) eq_refl)
    as (_ & Hcode & _ & Htime & _).
  split; [exact Hcode|exact Htime].
Defined.

(** ** The publisher in the VPC *)



(** ** One more worker *)

Lemma set_new {V} (k : string) (v : V) (o : JsObject.t V) :
  JsObject.get k o = None -> JsObject.set k v o = (o ++ [(k, v)])%list.
Proof.
  induction o as [|[k' v'] o IH]; simpl; [reflexivity|].
  destruct (String.eqb k k'); [discriminate|].
  intros H. now rewrite IH.
Qed.

Lemma widget_titles (fs : JsObject.t LambdaFunction) :
  map title (ReviewBotLambda.widgetsOf fs)
  = map (fun k => k ++ " Metrics") (JsObject.keys fs).
Proof.
  rewrite widgetsOf_map. unfold JsObject.keys, JsObject.entries.
  rewrite !map_map. apply map_ext. now intros [k f].
Qed.

(** X9. The dashboard follows the order of declaration, for keys that are
    ordinary (no array index, not [__proto__]).  A function assigned under a
    new key gets its widget after all the others, which keep their places; a
    function assigned under a key already in use takes over the widget at that
    key's place, and the titles stay as they were. *)
Theorem widgets_follow_assignments (fs : JsObject.t LambdaFunction)
    (k : string) (f : LambdaFunction)
    (Hk : ordinaryKey k = true)
    (Hfs : Forall (fun k' => ordinaryKey k' = true) (JsObject.keys fs)) :
  (JsObject.get k fs = None ->
   ReviewBotLambda.widgetsOf (JsObject.set k f fs)
   = (ReviewBotLambda.widgetsOf fs ++ [ReviewBotLambda.graphWidget (k, f)])%list)
  /\ (JsObject.get k fs <> None ->
      List.length (ReviewBotLambda.widgetsOf (JsObject.set k f fs))
      = List.length (ReviewBotLambda.widgetsOf fs)
      /\ map title (ReviewBotLambda.widgetsOf (JsObject.set k f fs))
         = map title (ReviewBotLambda.widgetsOf fs)).
Proof.
  split.
  - intros Hnew. rewrite !widgetsOf_map, set_new by assumption.
    unfold JsObject.entries. now rewrite map_app.
  - intros Hold.
    assert (Hkeys : JsObject.keys (JsObject.set k f fs) = JsObject.keys fs).
    { rewrite keys_set. now destruct (JsObject.get k fs). }
    split.
    + rewrite <- !(length_map title), !widget_titles, Hkeys. reflexivity.
    + now rewrite !widget_titles, Hkeys.
Qed.

Lemma widgets_follow_assignments_witness :
  ReviewBotLambda.widgetsOf
    (JsObject.set "archive" (ReviewBotLambda.handleError sampleProps)
       (ReviewBotLambda.functions sampleProps))
  = (ReviewBotLambda.widgetsOf (ReviewBotLambda.functions sampleProps)
     ++ [ReviewBotLambda.graphWidget
           ("archive", ReviewBotLambda.handleError sampleProps)])%list.
Proof.
  apply (proj1 (widgets_follow_assignments (ReviewBotLambda.functions sampleProps)
                  "archive" (ReviewBotLambda.handleError sampleProps)
                  eq_refl ltac:(repeat constructor))).
  reflexivity.
Defined.

Example sample_stack_outputs :
  map outputId
      (AmazonBedrockPrReviewbotStack.outputs
         (AmazonBedrockPrReviewbotStack.constructor sampleCollaborators))
  = ["WebhookUrl"; "ApiGatewayLogGroup"; "StateMachineArn"].
Proof. reflexivity. Qed.
